(** * health-live: the derivation pipeline of the dashboard page

    A shallow embedding of the metric-derivation code of the [Home]
    component (the dashboard page with the sleep-debt, target-sleep and
    trend computations): [getMetric], the per-entry normalisation inside
    [entries.map], the baselines, the scores and the chart series.

    JavaScript numbers are IEEE-754 binary64 values, so they are modelled
    by Rocq's primitive floats; JSON values coming from the timeseries
    endpoint are modelled by [JS.JSValue]; JavaScript exceptions by the
    [JS.Result] monad. *)

From Stdlib Require Import Ascii ZArith Floats Lia List Permutation.
From stdpp Require Import gmap strings list pretty.

Set Warnings "-inexact-float,-register-all".

(** ** The fragment of the ECMAScript semantics used by the page *)

Module JS.

(** Values that [res.json()] can produce, plus [undefined] (the result
    of reading a missing property).  Arrays are not modelled: the
    records of the endpoint hold scalars and nested mappings. *)
Inductive JSValue : Type :=
| JUndefined
| JNull
| JBool (b : bool)
| JNum (x : float)
| JStr (s : string)
| JObj (m : gmap string JSValue).

(** Abrupt completion: the only exception the pipeline can raise is a
    [TypeError] (reading a property of [null]/[undefined], or calling
    something that is not a function). *)
Inductive JSError : Type := TypeError.

Inductive Result (A : Type) : Type :=
| Ok (a : A)
| Throw (e : JSError).
Arguments Ok {A} a.
Arguments Throw {A} e.

Definition bind {A B} (r : Result A) (k : A -> Result B) : Result B :=
  match r with
  | Ok a => k a
  | Throw e => Throw e
  end.

(** [Array.prototype.map] with a callback that may throw: the first
    exception aborts the whole map. *)
Fixpoint mapM {A B} (f : A -> Result B) (l : list A) : Result (list B) :=
  match l with
  | [] => Ok []
  | a :: l' =>
      bind (f a) (fun b => bind (mapM f l') (fun bs => Ok (b :: bs)))
  end.

(** *** Numbers *)

Definition isNaN (x : float) : bool := PrimFloat.is_nan x.

(** ToBoolean on a number: [0], [-0] and [NaN] are falsy. *)
Definition truthy_num (x : float) : bool :=
  negb (PrimFloat.is_zero x || PrimFloat.is_nan x).

(** Relational operators on numbers (any comparison with NaN is false). *)
Definition gt (x y : float) : bool := (y <? x)%float.
Definition ge (x y : float) : bool := (y <=? x)%float.
Definition lt (x y : float) : bool := (x <? y)%float.

(** The Number value of a mathematical integer (exact below 2^53,
    round-to-nearest-even above). *)
Definition of_Z (z : Z) : float :=
  SF2Prim (binary_normalize prec emax z 0 false).

(** The Number value of the rational [m * 10^e10] ([0 < m]), correctly
    rounded: for a negative exponent the quotient is computed with at
    least 56 significant bits and a sticky bit. *)
Definition of_decimal (neg : bool) (m e10 : Z) : float :=
  let sgn (z : Z) := if neg then Z.opp z else z in
  if (m =? 0)%Z then (if neg then neg_zero else PrimFloat.zero)
  else if (0 <=? e10)%Z then
    SF2Prim (binary_normalize prec emax (sgn (m * 10 ^ e10)%Z) 0 false)
  else
    let den := (10 ^ (- e10))%Z in
    let k := Z.max 0 (Z.log2 den - Z.log2 m + 56) in
    let num := (m * 2 ^ k)%Z in
    let q := (num / den)%Z in
    let sticky := if (num mod den =? 0)%Z then 0%Z else 1%Z in
    SF2Prim (binary_normalize prec emax (sgn (2 * q + sticky)%Z)
               (- (k + 1)) false).

(** [Math.round]: the closest integral Number, ties towards +infinity;
    NaN, the infinities, the zeros and integral values are returned
    unchanged; values in [-0.5, 0) give [-0]. *)
Definition Math_round (x : float) : float :=
  match Prim2SF x with
  | S754_finite s m e =>
      if (0 <=? e)%Z then x
      else
        let n := if s then Z.neg m else Z.pos m in
        let d := (2 ^ (- e))%Z in
        let r := ((2 * n + d) / (2 * d))%Z in
        if (r =? 0)%Z then (if s then neg_zero else PrimFloat.zero) else of_Z r
  | _ => x
  end.

(** *** Strings to numbers *)

Local Open Scope char_scope.

(** StrWhiteSpaceChar, restricted to the ASCII range (strings are
    modelled as byte strings): TAB, LF, VT, FF, CR and SP. *)
Definition is_ws (c : ascii) : bool :=
  let n := N_of_ascii c in
  ((9 <=? n) && (n <=? 13) || (n =? 32))%N.

Fixpoint trim_start (l : list ascii) : list ascii :=
  match l with
  | c :: l' => if is_ws c then trim_start l' else l
  | [] => []
  end.

Definition trim (l : list ascii) : list ascii :=
  rev (trim_start (rev (trim_start l))).

Definition digit_val (radix : Z) (c : ascii) : option Z :=
  let n := Z.of_N (N_of_ascii c) in
  let v := if (48 <=? n)%Z && (n <=? 57)%Z then (n - 48)%Z
           else if (97 <=? n)%Z && (n <=? 102)%Z then (n - 87)%Z
           else if (65 <=? n)%Z && (n <=? 70)%Z then (n - 55)%Z
           else radix in
  if (v <? radix)%Z then Some v else None.

(** Reads the longest run of digits; returns the accumulated value, the
    number of digits read and the remaining input. *)
Fixpoint take_digits (radix : Z) (l : list ascii) (acc cnt : Z)
  : Z * Z * list ascii :=
  match l with
  | c :: l' =>
      match digit_val radix c with
      | Some d => take_digits radix l' (acc * radix + d)%Z (cnt + 1)%Z
      | None => (acc, cnt, l)
      end
  | [] => (acc, cnt, [])
  end.

Definition take_sign (l : list ascii) : bool * list ascii :=
  match l with
  | "+" :: r => (false, r)
  | "-" :: r => (true, r)
  | _ => (false, l)
  end.

Fixpoint strip_prefix (p l : list ascii) : option (list ascii) :=
  match p, l with
  | [], _ => Some l
  | a :: p', b :: l' => if Ascii.eqb a b then strip_prefix p' l' else None
  | _ :: _, [] => None
  end.

(** The longest prefix of the input that is a StrDecimalLiteral
    (optional sign, then [Infinity] or digits with an optional fraction
    and exponent), with its Number value and the rest of the input. *)
Definition scan_decimal (l : list ascii) : option (float * list ascii) :=
  let '(neg, l1) := take_sign l in
  match strip_prefix (String.list_ascii_of_string "Infinity") l1 with
  | Some r => Some (if neg then neg_infinity else infinity, r)
  | None =>
      let '(ip, ni, l2) := take_digits 10 l1 0%Z 0%Z in
      let '(m, nf, l3) :=
        match l2 with
        | "." :: r => take_digits 10 r ip 0%Z
        | _ => (ip, 0%Z, l2)
        end in
      if (ni + nf =? 0)%Z then None
      else
        let '(ex, l4) :=
          match l3 with
          | c :: r =>
              if Ascii.eqb c "e" || Ascii.eqb c "E" then
                let '(eneg, r1) := take_sign r in
                let '(ev, ne, r2) := take_digits 10 r1 0%Z 0%Z in
                if (ne =? 0)%Z then (0%Z, l3)
                else (if eneg then (- ev)%Z else ev, r2)
              else (0%Z, l3)
          | [] => (0%Z, l3)
          end in
        Some (of_decimal neg m (ex - nf), l4)
  end.

(** NonDecimalIntegerLiteral: [0x], [0o] and [0b] literals (no sign). *)
Definition scan_nondecimal (l : list ascii) : option float :=
  match l with
  | "0" :: c :: r =>
      let radix :=
        if Ascii.eqb c "x" || Ascii.eqb c "X" then 16%Z
        else if Ascii.eqb c "o" || Ascii.eqb c "O" then 8%Z
        else if Ascii.eqb c "b" || Ascii.eqb c "B" then 2%Z
        else 0%Z in
      match take_digits radix r 0%Z 0%Z with
      | (v, n, []) => if (0 <? n)%Z then Some (of_Z v) else None
      | _ => None
      end
  | _ => None
  end.

(** StringToNumber, the conversion applied by [Number(s)]. *)
Definition StringToNumber (s : string) : float :=
  match trim (String.list_ascii_of_string s) with
  | [] => PrimFloat.zero
  | t =>
      match scan_decimal t with
      | Some (v, []) => v
      | _ => match scan_nondecimal t with
             | Some v => v
             | None => nan
             end
      end
  end.

(** [parseFloat] on a string: leading white space is skipped and the
    longest decimal-literal prefix is converted. *)
Definition parseFloat_string (s : string) : float :=
  match scan_decimal (trim_start (String.list_ascii_of_string s)) with
  | Some (v, _) => v
  | None => nan
  end.

(** *** Conversions and property reads on JSON values *)

(** ToBoolean. *)
Definition truthy (v : JSValue) : bool :=
  match v with
  | JUndefined | JNull => false
  | JBool b => b
  | JNum x => truthy_num x
  | JStr s => negb (String.eqb s "")
  | JObj _ => true
  end.

(** [v != null]: false exactly for [null] and [undefined]. *)
Definition not_nullish (v : JSValue) : bool :=
  match v with
  | JUndefined | JNull => false
  | _ => true
  end.

(** [Number(v)].  A plain object converts through ["[object Object]"]
    to NaN. *)
Definition Number (v : JSValue) : float :=
  match v with
  | JUndefined => nan
  | JNull => PrimFloat.zero
  | JBool b => if b then PrimFloat.one else PrimFloat.zero
  | JNum x => x
  | JStr s => StringToNumber s
  | JObj _ => nan
  end.

(** [parseFloat(v)]: the argument is converted to a string first, so
    booleans, [null], [undefined] and plain objects give NaN.  The page
    calls it on non-number values only; the number case is given as the
    identity. *)
Definition parseFloat (v : JSValue) : float :=
  match v with
  | JStr s => parseFloat_string s
  | JNum x => x
  | _ => nan
  end.

(** [v[k]] / [v.k] for the keys the page reads (none of them is a
    member of a built-in prototype): reading a property of [null] or
    [undefined] throws, a missing property is [undefined], and a
    primitive has none of these properties. *)
Definition Get (v : JSValue) (k : string) : Result JSValue :=
  match v with
  | JUndefined | JNull => Throw TypeError
  | JObj m => Ok (default JUndefined (m !! k))
  | _ => Ok JUndefined
  end.

(** [v.slice(0, 10)]: defined on strings; on any other JSON value the
    property [slice] is not a function and the call throws. *)
Definition slice_0_10 (v : JSValue) : Result string :=
  match v with
  | JStr s => Ok (String.substring 0 10 s)
  | _ => Throw TypeError
  end.

End JS.

Import JS.

#[export] Instance Result_bind : MBind Result :=
  fun A B k r => JS.bind r k.

(** ** The dashboard page ([Home]) *)

(** *** Field resolution *)

(** The loop of [getMetric]: the first key whose value is neither [null]
    nor [undefined] wins; [null] when no key matches. *)
Fixpoint getMetric_loop (obj : JSValue) (keys : list string)
  : Result JSValue :=
  match keys with
  | [] => Ok JNull
  | key :: keys' =>
      v ← Get obj key;
      if not_nullish v && negb (match v with JUndefined => true | _ => false end)
      then Ok v
      else getMetric_loop obj keys'
  end.

(** [function getMetric(obj = {}, keys)]: the default value replaces an
    [undefined] argument. *)
Definition getMetric (obj : JSValue) (keys : list string) : Result JSValue :=
  getMetric_loop (match obj with JUndefined => JObj ∅ | _ => obj end) keys.

Definition hrv_keys : list string :=
  ["hrv"; "hrvAverage"; "hrv_average"; "averageHrv"; "HRV"; "hrvAvg"].
Definition rhr_keys : list string :=
  ["restingHeartRate"; "rhr"; "resting_heart_rate"; "restingHeartRateAvg";
   "RHR"].
Definition steps_keys : list string :=
  ["steps"; "stepCount"; "step_count"; "dailyStepCount"].
Definition sleep_keys : list string :=
  ["sleepHours"; "sleepDuration"; "totalSleepTime"; "sleepDurationHours"].
Definition trainingLoad_keys : list string :=
  ["trainingLoad"; "trimp"; "TRIMP"; "training_load"].
Definition spo2_keys : list string :=
  ["oxygenSaturation"; "spo2"; "SpO2"; "blood_oxygen_percentage"].
Definition respiratoryRate_keys : list string :=
  ["respiratoryRate"; "respirationRate"; "respiratory_rate"].
Definition temperature_keys : list string :=
  ["temperature"; "wristTemperature"; "wristTemp"; "bodyTemperature"].

(** *** Per-entry normalisation *)

(** One row of [processed].  A metric is [None] for JavaScript's [null]
    and [Some x] for the number [x] (which may be NaN or an infinity). *)
Record NormalizedDay : Type := mkDay {
  date : string;
  hrv : option float;
  rhr : option float;
  steps : option float;
  sleepHours : option float;
  trainingLoad : option float;
  spo2 : option float;
  respiratoryRate : option float;
  temperature : option float
}.

(** The computation of [sleepHours] from [sleepRaw]. *)
Definition sleepHours_of_raw (sleepRaw : JSValue) : option float :=
  if not_nullish sleepRaw then
    match sleepRaw with
    | JNum x => if gt x 50 then Some (x / 3600)%float else Some x
    | _ =>
        if negb (isNaN (parseFloat sleepRaw))
        then Some (parseFloat sleepRaw)
        else None
    end
  else None.

(** [v != null ? Number(v) : null]. *)
Definition number_or_null (v : JSValue) : option float :=
  if not_nullish v then Some (Number v) else None.

(** [a || {}]. *)
Definition or_empty (a : JSValue) : JSValue :=
  if truthy a then a else JObj ∅.

(** The callback of [entries.map]. *)
Definition normalize (entry : JSValue) : Result NormalizedDay :=
  m ← Get entry "metrics";
  let metrics := or_empty m in
  w ← Get entry "workouts";
  let workouts := or_empty w in
  d ← Get entry "ingest_date";
  date ← (if truthy d then d' ← Get entry "ingest_date"; slice_0_10 d'
          else Ok ""%string);
  hrv ← getMetric metrics hrv_keys;
  rhr ← getMetric metrics rhr_keys;
  steps ← getMetric metrics steps_keys;
  sleepRaw ← getMetric metrics sleep_keys;
  let sleepHours := sleepHours_of_raw sleepRaw in
  trainingLoad ← getMetric metrics trainingLoad_keys;
  spo2 ← getMetric metrics spo2_keys;
  respiratoryRate ← getMetric metrics respiratoryRate_keys;
  temperature ← getMetric metrics temperature_keys;
  Ok {| date := date;
        hrv := number_or_null hrv;
        rhr := number_or_null rhr;
        steps := number_or_null steps;
        sleepHours := sleepHours;
        trainingLoad := number_or_null trainingLoad;
        spo2 := number_or_null spo2;
        respiratoryRate := number_or_null respiratoryRate;
        temperature := number_or_null temperature |}.

(** [const processed = entries.map(...)]. *)
Definition processed_of (entries : list JSValue)
  : Result (list NormalizedDay) :=
  mapM normalize entries.

(** *** Baselines *)

(** [processed.map(sel).filter((v) => v != null && !isNaN(v))]. *)
Definition kept (v : option float) : option float :=
  match v with
  | Some x => if negb (isNaN x) then Some x else None
  | None => None
  end.

Definition metricValues (sel : NormalizedDay -> option float)
  (processed : list NormalizedDay) : list float :=
  omap (fun p => kept (sel p)) processed.

(** [vs.reduce((sum, v) => sum + v, 0)]. *)
Definition sum_values (vs : list float) : float :=
  fold_left PrimFloat.add vs PrimFloat.zero.

(** [vs.length ? vs.reduce(...) / vs.length : null]. *)
Definition mean (vs : list float) : option float :=
  match vs with
  | [] => None
  | _ => Some (sum_values vs / of_Z (Z.of_nat (length vs)))%float
  end.

Definition hrvValues (processed : list NormalizedDay) : list float :=
  metricValues hrv processed.
Definition rhrValues (processed : list NormalizedDay) : list float :=
  metricValues rhr processed.
Definition loadValues (processed : list NormalizedDay) : list float :=
  metricValues trainingLoad processed.

Definition baselineHRV (processed : list NormalizedDay) : option float :=
  mean (hrvValues processed).
Definition baselineRHR (processed : list NormalizedDay) : option float :=
  mean (rhrValues processed).
Definition baselineLoad (processed : list NormalizedDay) : option float :=
  mean (loadValues processed).

(** The three baselines are one computation applied to three columns. *)
Definition baseline (sel : NormalizedDay -> option float)
  (processed : list NormalizedDay) : option float :=
  mean (metricValues sel processed).

(** [latest.f] where [latest = processed[processed.length - 1] || {}]:
    [None] stands for [null] and for the [undefined] read from [{}]. *)
Definition latest (sel : NormalizedDay -> option float)
  (processed : list NormalizedDay) : option float :=
  last processed ≫= sel.

(** *** Scores *)

(** Truthiness of a nullable number in a condition. *)
Definition truthy_opt (v : option float) : bool :=
  match v with
  | Some x => truthy_num x
  | None => false
  end.

(** The recovery percentage before rounding (the expression shared by
    [recoveryScore] and [recoveryTrend]). *)
Definition recovery_ratio (hrv baselineHRV baselineRHR rhr : float) : float :=
  ((hrv / baselineHRV * 0.7 + baselineRHR / rhr * 0.3) * 100)%float.

(** [baselineHRV && latest.hrv && baselineRHR && latest.rhr
      ? Math.round(((latest.hrv / baselineHRV) * 0.7
                    + (baselineRHR / latest.rhr) * 0.3) * 100)
      : null]. *)
Definition recoveryScore (baselineHRV latest_hrv baselineRHR latest_rhr
  : option float) : option float :=
  if truthy_opt baselineHRV && truthy_opt latest_hrv
     && truthy_opt baselineRHR && truthy_opt latest_rhr
  then
    match baselineHRV, latest_hrv, baselineRHR, latest_rhr with
    | Some bh, Some h, Some br, Some r =>
        Some (Math_round (recovery_ratio h bh br r))
    | _, _, _, _ => None
    end
  else None.

Definition exertion_ratio (trainingLoad baselineLoad : float) : float :=
  (trainingLoad / baselineLoad * 100)%float.

(** [baselineLoad && latest.trainingLoad
      ? Math.round((latest.trainingLoad / baselineLoad) * 100) : null]. *)
Definition exertionScore (baselineLoad latest_load : option float)
  : option float :=
  if truthy_opt baselineLoad && truthy_opt latest_load then
    match baselineLoad, latest_load with
    | Some bl, Some l => Some (Math_round (exertion_ratio l bl))
    | _, _ => None
    end
  else None.

Inductive Zone : Type := High | Moderate | Low.

(** [targetZone]: set only when [recoveryScore != null]. *)
Definition targetZone (recoveryScore : option float) : option Zone :=
  match recoveryScore with
  | Some r =>
      if ge r 90 then Some High
      else if ge r 70 then Some Moderate
      else Some Low
  | None => None
  end.

Inductive Quality : Type := Excellent | Average | Poor.

(** [sleepQuality]: set only when [latest.sleepHours != null]. *)
Definition sleepQuality (latest_sleepHours : option float) : option Quality :=
  match latest_sleepHours with
  | Some h =>
      if ge h 7.5 then Some Excellent
      else if ge h 6 then Some Average
      else Some Poor
  | None => None
  end.

Inductive Alert : Type := LowSpO2 | HighRespiratoryRate | ElevatedTemperature.

(** [alerts]: the three threshold checks, pushed in this order. *)
Definition alerts (latest_spo2 latest_resp latest_temp : option float)
  : list Alert :=
  (match latest_spo2 with
   | Some x => if lt x 95 then [LowSpO2] else []
   | None => []
   end)
  ++ (match latest_resp with
      | Some x => if gt x 20 then [HighRespiratoryRate] else []
      | None => []
      end)
  ++ (match latest_temp with
      | Some x => if gt x 38 then [ElevatedTemperature] else []
      | None => []
      end).

(** [processed.slice(-n)]: the last [n] rows (all of them when there are
    fewer). *)
Definition slice_last {A} (n : nat) (l : list A) : list A :=
  drop (length l - n) l.

(** [p.sleepHours != null ? p.sleepHours : 0]. *)
Definition sleep_or_zero (p : NormalizedDay) : float :=
  match sleepHours p with
  | Some h => h
  | None => PrimFloat.zero
  end.

(** [sleepDebtHours]: computed when [processed.length >= 7] from the
    last seven rows; [optimal = 7 * 7.5]. *)
Definition sleepDebtHours (processed : list NormalizedDay) : option float :=
  if (7 <=? length processed)%nat then
    let last7 := slice_last 7 processed in
    let totalSleep :=
      fold_left (fun sum p => (sum + sleep_or_zero p)%float) last7
        PrimFloat.zero in
    let optimal := (7 * 7.5)%float in
    let debt := (optimal - totalSleep)%float in
    Some (if gt debt 0 then debt else PrimFloat.zero)
  else None.

(** [targetSleep]: 8 hours plus three independent half-hour
    increments, when [recoveryScore != null]. *)
Definition targetSleep (recoveryScore exertionScore sleepDebtHours
  : option float) : option float :=
  match recoveryScore with
  | Some r =>
      let t := 8%float in
      let t := if lt r 80 then (t + 0.5)%float else t in
      let t :=
        if match exertionScore with Some e => gt e 120 | None => false end
        then (t + 0.5)%float else t in
      let t :=
        if match sleepDebtHours with Some d => gt d 3 | None => false end
        then (t + 0.5)%float else t in
      Some t
  | None => None
  end.

(** *** Chart series *)

(** [labels = processed.map((p) => p.date)]. *)
Definition labels (processed : list NormalizedDay) : list string :=
  map date processed.

(** [recoveryTrend]: the unrounded recovery expression per row, [null]
    where the condition fails. *)
Definition recoveryTrend (baselineHRV baselineRHR : option float)
  (processed : list NormalizedDay) : list (option float) :=
  map (fun p =>
         if truthy_opt baselineHRV && truthy_opt (hrv p)
            && truthy_opt baselineRHR && truthy_opt (rhr p)
         then
           match baselineHRV, hrv p, baselineRHR, rhr p with
           | Some bh, Some h, Some br, Some r =>
               Some (recovery_ratio h bh br r)
           | _, _, _, _ => None
           end
         else None)
      processed.

(** [exertionTrend]: the unrounded exertion expression per row. *)
Definition exertionTrend (baselineLoad : option float)
  (processed : list NormalizedDay) : list (option float) :=
  map (fun p =>
         if truthy_opt baselineLoad && truthy_opt (trainingLoad p) then
           match baselineLoad, trainingLoad p with
           | Some bl, Some l => Some (exertion_ratio l bl)
           | _, _ => None
           end
         else None)
      processed.

(** *** The whole derivation *)

(** Everything [Home] computes before rendering. *)
Record Derived : Type := mkDerived {
  d_processed : list NormalizedDay;
  d_baselineHRV : option float;
  d_baselineRHR : option float;
  d_baselineLoad : option float;
  d_recoveryScore : option float;
  d_exertionScore : option float;
  d_targetZone : option Zone;
  d_sleepQuality : option Quality;
  d_alerts : list Alert;
  d_sleepDebtHours : option float;
  d_targetSleep : option float;
  d_labels : list string;
  d_recoveryTrend : list (option float);
  d_exertionTrend : list (option float)
}.

Definition derive (processed : list NormalizedDay) : Derived :=
  let bHRV := baselineHRV processed in
  let bRHR := baselineRHR processed in
  let bLoad := baselineLoad processed in
  let recovery := recoveryScore bHRV (latest hrv processed) bRHR
                    (latest rhr processed) in
  let exe := exertionScore bLoad (latest trainingLoad processed) in
  let debt := sleepDebtHours processed in
  {| d_processed := processed;
     d_baselineHRV := bHRV;
     d_baselineRHR := bRHR;
     d_baselineLoad := bLoad;
     d_recoveryScore := recovery;
     d_exertionScore := exe;
     d_targetZone := targetZone recovery;
     d_sleepQuality := sleepQuality (latest sleepHours processed);
     d_alerts := alerts (latest spo2 processed)
                   (latest respiratoryRate processed)
                   (latest temperature processed);
     d_sleepDebtHours := debt;
     d_targetSleep := targetSleep recovery exe debt;
     d_labels := labels processed;
     d_recoveryTrend := recoveryTrend bHRV bRHR processed;
     d_exertionTrend := exertionTrend bLoad processed |}.

(** The body of [Home] up to the [return] of the rendered page, as a
    function of the fetched [entries]. *)
Definition Home (entries : list JSValue) : Result Derived :=
  processed ← processed_of entries;
  Ok (derive processed).

(** ** Notions used in the statements, and sample data *)

(** "Absent or zero": [null]/[undefined], or a number equal to [0]
    (either sign). *)
Definition absent_or_zero (v : option float) : Prop :=
  match v with
  | None => True
  | Some x => PrimFloat.is_zero x = true
  end.

(** A row holding only the two recovery inputs. *)
Definition recovery_day (h r : float) : NormalizedDay :=
  mkDay "" (Some h) (Some r) None None None None None None.

(** Two days whose baselines are 50 (HRV) and 60 (RHR), the latest being
    55 / 55. *)
Definition recovery_history : list NormalizedDay :=
  [recovery_day 45 65; recovery_day 55 55].

(** An entry whose sleep duration is the string ["27000"] (seconds). *)
Definition string_sleep_entry : JSValue :=
  JObj {[ "ingest_date"%string := JStr "2024-05-01T06:30:00Z";
          "metrics"%string :=
            JObj {[ "sleepDuration"%string := JStr "27000" ]} ]}.

(** The value read by [obj[key]] when [obj] is not [null]/[undefined]. *)
Definition prop_of (obj : JSValue) (key : string) : JSValue :=
  match obj with
  | JObj m => default JUndefined (m !! key)
  | _ => JUndefined
  end.

(** The seven metrics that go through [Number], with their candidate
    keys. *)
Definition numeric_fields
  : list (list string * (NormalizedDay -> option float)) :=
  [ (hrv_keys, hrv); (rhr_keys, rhr); (steps_keys, steps);
    (trainingLoad_keys, trainingLoad); (spo2_keys, spo2);
    (respiratoryRate_keys, respiratoryRate);
    (temperature_keys, temperature) ].

(** The reading under which a failed coercion makes the field absent:
    a field is [null] exactly when nothing resolved or the resolved value
    converts to NaN, and no field is NaN. *)
Definition absent_iff_unresolved_or_nan (entry : JSValue) : Prop :=
  forall d m,
    normalize entry = Ok d -> Get entry "metrics" = Ok m ->
    Forall (fun kf =>
              forall v, getMetric (or_empty m) (fst kf) = Ok v ->
                (snd kf d = None
                 <-> (not_nullish v = false \/ isNaN (Number v) = true))
                /\ (forall x, snd kf d = Some x -> isNaN x = false))
      numeric_fields.

(** What the code does: the field is [null] exactly when nothing
    resolved, and otherwise it is [Number] of the resolved value, NaN
    included. *)
Definition field_follows_resolver (obj : JSValue)
  (d : NormalizedDay) (kf : list string * (NormalizedDay -> option float))
  : Prop :=
  exists v,
    getMetric obj (fst kf) = Ok v
    /\ (snd kf d = None
        <-> Forall (fun k => not_nullish (prop_of obj k) = false) (fst kf))
    /\ (snd kf d = None <-> not_nullish v = false)
    /\ (not_nullish v = true -> snd kf d = Some (Number v)).

(** An entry whose HRV is a string that is not a number. *)
Definition nan_entry : JSValue :=
  JObj {[ "ingest_date"%string := JStr "2024-05-01T06:30:00Z";
          "metrics"%string := JObj {[ "hrv"%string := JStr "abc" ]} ]}.

Definition nan_day : NormalizedDay :=
  mkDay "2024-05-01" (Some nan) None None None None None None None.

(** The sleep hours of the day at position [i] (0 when the day or its
    value is absent). *)
Definition sleep_at (processed : list NormalizedDay) (i : nat) : float :=
  match processed !! i ≫= sleepHours with
  | Some h => h
  | None => PrimFloat.zero
  end.

(** The sum, taken from the left starting at 0, over the positions
    [N - 7 .. N - 1]. *)
Definition last7_sleep_sum (processed : list NormalizedDay) : float :=
  fold_left (fun sum i => (sum + sleep_at processed i)%float)
    (seq (length processed - 7) 7) PrimFloat.zero.

(** [max(0, x)] as the code computes it: [x] when [x > 0], else [0]. *)
Definition floor_at_zero (x : float) : float :=
  if (0 <? x)%float then x else PrimFloat.zero.

(** A row holding only a sleep duration. *)
Definition sleep_day (h : float) : NormalizedDay :=
  mkDay "" None None None (Some h) None None None None.

Definition week_of (h : float) : list NormalizedDay :=
  replicate 7 (sleep_day h).

(** "[v] is present and greater than [c]". *)
Definition present_and_gt (v : option float) (c : float) : bool :=
  match v with
  | Some x => gt x c
  | None => false
  end.

(** How many of the three conditions hold. *)
Definition increments (r : float) (exertion debt : option float) : Z :=
  Z.b2z (lt r 80) + Z.b2z (present_and_gt exertion 120)
  + Z.b2z (present_and_gt debt 3).

(** A week of short nights ending on a low-recovery day. *)
Definition tired_week : list NormalizedDay :=
  replicate 6 (mkDay "" (Some 60%float) (Some 50%float) None
                 (Some 6%float) None None None None)
  ++ [mkDay "" (Some 30%float) (Some 65%float) None (Some 6%float)
        None None None None].

(** The baseline as the specification words it: the mean of the selected
    values that are finite numbers. *)
Definition finite_values (sel : NormalizedDay -> option float)
  (processed : list NormalizedDay) : list float :=
  omap (fun p => match sel p with
                 | Some x => if PrimFloat.is_finite x then Some x else None
                 | None => None
                 end) processed.

Definition finite_mean (sel : NormalizedDay -> option float)
  (processed : list NormalizedDay) : option float :=
  mean (finite_values sel processed).

(** A row holding only an HRV value. *)
Definition hrv_day (h : float) : NormalizedDay :=
  mkDay "" (Some h) None None None None None None None.

(** An entry whose HRV is the string ["Infinity"]. *)
Definition infinite_entry : JSValue :=
  JObj {[ "metrics"%string := JObj {[ "hrv"%string := JStr "Infinity" ]} ]}.

(** Three ordinary HRV readings, in two orders. *)
Definition readings : list NormalizedDay :=
  [hrv_day 45.1; hrv_day 52.3; hrv_day 48.7].

Definition readings_reversed : list NormalizedDay :=
  [hrv_day 48.7; hrv_day 52.3; hrv_day 45.1].






(** ** Notions for further properties of the page *)

Definition is_string (v : JSValue) : bool :=
  match v with
  | JStr _ => true
  | _ => false
  end.


(** The [date] of a row: the first ten characters of a string
    timestamp, the empty string otherwise. *)
Definition date_of (entry : JSValue) : string :=
  match prop_of entry "ingest_date" with
  | JStr s => String.substring 0 10 s
  | _ => ""%string
  end.

(** A metrics mapping with a [null] HRV and two synonymous HRV keys, and
    a record holding it under a full ISO timestamp. *)
Definition synonym_metrics : JSValue :=
  JObj {[ "hrv"%string := JNull;
          "averageHrv"%string := JNum 48;
          "hrvAvg"%string := JNum 51 ]}.

Definition synonym_entry : JSValue :=
  JObj {[ "ingest_date"%string := JStr "2024-05-04T21:15:09.120Z";
          "metrics"%string := synonym_metrics ]}.

(** "[v] is present and less than [c]". *)
Definition present_and_lt (v : option float) (c : float) : bool :=
  match v with
  | Some x => lt x c
  | None => false
  end.

(** A latest day with all vitals. *)
Definition vitals_day : NormalizedDay :=
  mkDay "2024-05-08" None None None (Some 6.5%float) None
    (Some 93%float) (Some 18%float) (Some 38.4%float).

(** ** The two API routes *)

(** [process.env]: each variable is a string or missing. *)
Record Env : Type := mkEnv {
  HAE_TOKEN : option string;
  SUPABASE_URL : option string;
  SUPABASE_SERVICE_ROLE : option string
}.

(** [getSupabaseClient()] (the same function in both routes): whether a
    client is created, that is, whether both variables are non-empty
    strings ([!url || !key] returns [null]). *)
Definition getSupabaseClient (env : Env) : bool :=
  match SUPABASE_URL env, SUPABASE_SERVICE_ROLE env with
  | Some url, Some key => negb (String.eqb url "") && negb (String.eqb key "")
  | _, _ => false
  end.

(** *** [POST /api/hae/ingest] *)

Module Ingest.

(** The parts of the request the route reads: [req.method],
    [req.headers.authorization] and the parsed [req.body]. *)
Record Request : Type := mkRequest {
  method : string;
  authorization : option string;
  body : JSValue
}.

Inductive Payload : Type :=
| ErrorBody (error : string)
| SuccessBody.

(** [status] and JSON body of the response, and the [Allow] header when
    one is set. *)
Record Response : Type := mkResponse {
  status : nat;
  allow : list string;
  json : Payload
}.

(** What the database client does with the insert, which the route
    cannot control: the row is stored, the call resolves with an
    [error] (nothing stored), or creating the client or inserting throws
    (nothing stored). *)
Inductive DbOutcome : Type := Inserted | Rejected | Raised.

(** [authHeader.startsWith('Bearer ') ? authHeader.slice('Bearer '.length)
    : null]. *)
Definition bearer_token (authHeader : string) : option string :=
  if String.prefix "Bearer " authHeader
  then Some (String.substring 7 (String.length authHeader - 7) authHeader)
  else None.

(** [!token || token !== process.env.HAE_TOKEN], with
    [authHeader = req.headers.authorization || '']. *)
Definition unauthorized (env : Env) (req : Request) : bool :=
  let authHeader := default ""%string (authorization req) in
  match bearer_token authHeader with
  | None => true
  | Some token =>
      String.eqb token ""
      || negb (match HAE_TOKEN env with
               | Some expected => String.eqb token expected
               | None => false
               end)
  end.

(** The own enumerable properties of a string: its characters under
    their indices. *)
Definition string_entries (s : string) : gmap string JSValue :=
  list_to_map
    (imap (fun i c => (pretty i, JStr (String c EmptyString)))
       (String.list_ascii_of_string s)).

(** The [...rest] of [const { metrics, workouts, ...rest } = b]: the own
    properties of [b] other than the two named ones. *)
Definition rest_of (b : JSValue) : JSValue :=
  match b with
  | JObj m => JObj (delete "metrics"%string (delete "workouts"%string m))
  | JStr s => JObj (string_entries s)
  | _ => JObj ∅
  end.

(** [a || null]. *)
Definition or_null (a : JSValue) : JSValue :=
  if truthy a then a else JNull.

(** The row built from an accepted body and the ingestion time. *)
Definition record_of (ingestDate : string) (metrics workouts rest : JSValue)
  : JSValue :=
  JObj {[ "ingest_date"%string := JStr ingestDate;
          "metrics"%string := or_null metrics;
          "workouts"%string := or_null workouts;
          "payload"%string := or_null rest ]}.

(** The route, as a function of the environment, of the time
    [new Date().toISOString()] returns, of what the database does, of
    the request and of the table [health_metrics]; it returns the
    response and the table afterwards. *)
Definition handler (env : Env) (ingestDate : string) (db : DbOutcome)
  (req : Request) (table : list JSValue)
  : Result (Response * list JSValue) :=
  if negb (String.eqb (method req) "POST") then
    Ok (mkResponse 405 ["POST"%string] (ErrorBody "Method not allowed"),
        table)
  else if unauthorized env req then
    Ok (mkResponse 401 [] (ErrorBody "Unauthorized"), table)
  else
    let b := or_empty (body req) in
    metrics ← Get b "metrics";
    workouts ← Get b "workouts";
    let rest := rest_of b in
    if negb (truthy metrics) && negb (truthy workouts) then
      Ok (mkResponse 400 []
            (ErrorBody "Request body must include metrics or workouts"),
          table)
    else
      let record := record_of ingestDate metrics workouts rest in
      if getSupabaseClient env then
        match db with
        | Inserted => Ok (mkResponse 200 [] SuccessBody, table ++ [record])
        | Rejected => Ok (mkResponse 200 [] SuccessBody, table)
        | Raised =>
            Ok (mkResponse 500 [] (ErrorBody "Internal server error"), table)
        end
      else Ok (mkResponse 200 [] SuccessBody, table).

End Ingest.

(** *** [GET /api/timeseries] *)

Module Timeseries.

Definition is_digit (c : ascii) : bool :=
  match digit_val 10 c with
  | Some _ => true
  | None => false
  end.

(** The class [[dwmy]]. *)
Definition is_unit (c : ascii) : bool :=
  Ascii.eqb c "d" || Ascii.eqb c "w" || Ascii.eqb c "m" || Ascii.eqb c "y".

(** [(\d+)([dwmy])] tried at the head of the input: [\d+] is greedy, so
    a longer run of digits is tried first and the matcher backtracks to a
    shorter one only when the longer one fails.  Returns the two
    groups. *)
Fixpoint match_here (l : list ascii) : option (list ascii * ascii) :=
  match l with
  | c :: l' =>
      if is_digit c then
        match match_here l' with
        | Some (ds, u) => Some (c :: ds, u)
        | None =>
            match l' with
            | u :: _ => if is_unit u then Some ([c], u) else None
            | [] => None
            end
        end
      else None
  | [] => None
  end.

(** [range.match(/(\d+)([dwmy])/)]: the pattern is not anchored, so it is
    tried at every position from the left. *)
Fixpoint search (l : list ascii) : option (list ascii * ascii) :=
  match match_here l with
  | Some r => Some r
  | None =>
      match l with
      | _ :: l' => search l'
      | [] => None
      end
  end.

(** [parseInt(digits, 10)] on a string of decimal digits. *)
Definition parseInt10 (ds : list ascii) : float :=
  of_Z (fst (fst (take_digits 10 ds 0%Z 0%Z))).

(** The change [parseRange] applies to a copy of the current date before
    returning it as an ISO string: [setDate(getDate() - n)],
    [setMonth(getMonth() - n)] or [setFullYear(getFullYear() - n)].  The
    calendar arithmetic itself belongs to [Date] and is not modelled. *)
Inductive Cutoff : Type :=
| DaysBack (n : float)
| MonthsBack (n : float)
| YearsBack (n : float).

Definition parseRange (range : JSValue) : option Cutoff :=
  match range with
  | JStr s =>
      if String.eqb s "" then None
      else
        match search (String.list_ascii_of_string s) with
        | None => None
        | Some (digits, unit) =>
            let amount := parseInt10 digits in
            if Ascii.eqb unit "d" then Some (DaysBack amount)
            else if Ascii.eqb unit "w" then Some (DaysBack (amount * 7)%float)
            else if Ascii.eqb unit "m" then Some (MonthsBack amount)
            else if Ascii.eqb unit "y" then Some (YearsBack amount)
            else None
        end
  | _ => None
  end.

Record Request : Type := mkRequest {
  method : string;
  range : JSValue
}.

Inductive Payload : Type :=
| ErrorBody (error : string)
| DataBody (data : list JSValue).

Record Response : Type := mkResponse {
  status : nat;
  allow : list string;
  json : Payload
}.

(** What the database answers to the query: rows (or [null]), an
    [error], or an exception. *)
Inductive QueryOutcome : Type :=
| Answered (data : option (list JSValue))
| Failed
| Raised.

(** The route; [query since] stands for the database answering the
    select, filtered by [ingest_date >= since] when [since] is set. *)
Definition handler (env : Env) (query : option Cutoff -> QueryOutcome)
  (req : Request) : Response :=
  if negb (String.eqb (method req) "GET") then
    mkResponse 405 ["GET"%string] (ErrorBody "Method not allowed")
  else
    let range := if truthy (range req) then range req else JStr "60d" in
    let since := parseRange range in
    if getSupabaseClient env then
      match query since with
      | Answered data => mkResponse 200 [] (DataBody (default [] data))
      | Failed => mkResponse 500 [] (ErrorBody "Database error")
      | Raised => mkResponse 500 [] (ErrorBody "Internal server error")
      end
    else mkResponse 200 [] (DataBody []).

End Timeseries.




(** Sample environment and requests. *)
Definition sample_env : Env :=
  mkEnv (Some "s3cret"%string) (Some "https://db.example"%string)
    (Some "service-key"%string).

Definition sample_body : JSValue :=
  JObj {[ "metrics"%string := JObj {[ "hrv"%string := JNum 52 ]};
          "device"%string := JStr "watch" ]}.

Definition sample_request : Ingest.Request :=
  Ingest.mkRequest "POST" (Some "Bearer s3cret"%string) sample_body.

(** ** Facts about number comparisons *)

Section Comparisons.

Lemma SFcompare_antisym (x y : spec_float) :
  SFcompare y x = option_map CompOpp (SFcompare x y).
Proof.
  destruct x as [sx|sx| |sx mx ex], y as [sy|sy| |sy my ey]; simpl;
    try reflexivity;
    try (destruct sx; reflexivity);
    try (destruct sy; reflexivity);
    try (destruct sx, sy; reflexivity).
  f_equal.
  rewrite (Z.compare_antisym ex ey).
  change (Pos.compare_cont Eq my mx)
    with (Pos.compare_cont (CompOpp Eq) my mx).
  rewrite <- (Pos.compare_cont_antisym mx my Eq).
  destruct sx, sy; simpl; try reflexivity;
    destruct (ex ?= ey)%Z; simpl; try reflexivity;
    destruct (Pos.compare_cont Eq mx my); reflexivity.
Qed.

Lemma lt_not_ge (x y : float) : lt x y = true -> ge x y = false.
Proof.
  unfold lt, ge. rewrite ltb_spec, leb_spec. unfold SFltb, SFleb.
  rewrite (SFcompare_antisym (Prim2SF x) (Prim2SF y)).
  destruct (SFcompare (Prim2SF x) (Prim2SF y)) as [[]|]; simpl; congruence.
Qed.

Lemma lt_le (x y : float) : lt x y = true -> (x <=? y)%float = true.
Proof.
  unfold lt. rewrite ltb_spec, leb_spec. unfold SFltb, SFleb.
  destruct (SFcompare (Prim2SF x) (Prim2SF y)) as [[]|]; congruence.
Qed.

Lemma gt_not_le (x y : float) : gt x y = true -> (x <=? y)%float = false.
Proof. unfold gt. intros H. apply (lt_not_ge y x H). Qed.

(** A number that is neither [>= y] nor [< y] is NaN (when [y] is not),
    so it is not [>= z] either. *)
Lemma unordered_not_ge (x y z : float) :
  isNaN y = false -> ge x y = false -> lt x y = false -> ge x z = false.
Proof.
  unfold isNaN, PrimFloat.is_nan, lt, ge.
  rewrite FloatAxioms.eqb_spec, ltb_spec, !leb_spec.
  unfold SFeqb, SFltb, SFleb.
  rewrite (SFcompare_antisym (Prim2SF x) (Prim2SF y)).
  intros Hy Hge Hlt.
  assert (Hx : Prim2SF x = S754_nan).
  { destruct (SFcompare (Prim2SF x) (Prim2SF y)) as [[]|] eqn:E;
      simpl in *; try discriminate.
    destruct (Prim2SF x) as [sx|sx| |sx mx ex]; try reflexivity;
      destruct (Prim2SF y) as [sy|sy| |sy my ey]; simpl in *;
      discriminate. }
  rewrite Hx. destruct (Prim2SF z); reflexivity.
Qed.

End Comparisons.

(** ** The runtime model on known values *)

Example Math_round_values :
  Math_round 109.72727272727272 = 110%float
  /\ Math_round 2.5 = 3%float
  /\ Math_round (-2.5) = (-2)%float
  /\ Math_round 0.49999999999999994 = 0%float
  /\ Math_round nan = nan
  /\ Math_round infinity = infinity.
Proof. repeat split; vm_compute; reflexivity. Qed.

Example Number_values :
  Number (JStr "27000") = 27000%float
  /\ Number (JStr " 7.5 ") = 7.5%float
  /\ Number (JStr "0.1") = 0.1%float
  /\ Number (JStr "1e3") = 1000%float
  /\ Number (JStr "0x1F") = 31%float
  /\ Number (JStr "") = 0%float
  /\ Number (JStr "-Infinity") = neg_infinity
  /\ Number (JStr "1e999") = infinity
  /\ Number (JStr "12px") = nan
  /\ Number (JStr "abc") = nan
  /\ Number (JBool true) = 1%float
  /\ Number (JObj ∅) = nan.
Proof. repeat split; vm_compute; reflexivity. Qed.

Example parseFloat_values :
  parseFloat (JStr "27000") = 27000%float
  /\ parseFloat (JStr "7.5h") = 7.5%float
  /\ parseFloat (JStr "  -.5e-2x") = (-0.005)%float
  /\ parseFloat (JStr "1e") = 1%float
  /\ parseFloat (JStr "0x1F") = 0%float
  /\ parseFloat (JStr "") = nan
  /\ parseFloat (JStr "abc") = nan
  /\ parseFloat (JBool true) = nan.
Proof. repeat split; vm_compute; reflexivity. Qed.

(** ** Recovery score *)

Lemma absent_or_zero_falsy (v : option float) :
  absent_or_zero v -> truthy_opt v = false.
Proof.
  destruct v as [x|]; simpl; [|reflexivity].
  intros Hz. unfold truthy_num. rewrite Hz. reflexivity.
Qed.

Lemma recoveryScore_truthy (bh h br r : float) :
  truthy_num bh = true -> truthy_num h = true ->
  truthy_num br = true -> truthy_num r = true ->
  recoveryScore (Some bh) (Some h) (Some br) (Some r)
  = Some (Math_round ((h / bh * 0.7 + br / r * 0.3) * 100)%float).
Proof.
  intros Hbh Hh Hbr Hr. unfold recoveryScore, truthy_opt.
  rewrite Hbh, Hh, Hbr, Hr. reflexivity.
Qed.

Lemma recoveryScore_falsy (bh h br r : option float) :
  truthy_opt bh = false \/ truthy_opt h = false \/
  truthy_opt br = false \/ truthy_opt r = false ->
  recoveryScore bh h br r = None.
Proof.
  unfold recoveryScore.
  intros [H|[H|[H|H]]]; rewrite H;
    rewrite ?andb_false_r, ?andb_false_l; reflexivity.
Qed.

(** C1: for every history, when the two baselines and the latest day's
    hrv and rhr are all present and truthy, recoveryScore is
    round(((hrv / baselineHRV) * 0.7 + (baselineRHR / rhr) * 0.3) * 100);
    when any of the four is absent or zero, recoveryScore is absent; and
    baselines 50 / 60 with latest values 55 / 55 give 110. *)
Theorem recoveryScore_spec (processed : list NormalizedDay) :
  (forall bh h br r : float,
      baselineHRV processed = Some bh ->
      latest hrv processed = Some h ->
      baselineRHR processed = Some br ->
      latest rhr processed = Some r ->
      truthy_num bh = true -> truthy_num h = true ->
      truthy_num br = true -> truthy_num r = true ->
      d_recoveryScore (derive processed)
      = Some (Math_round ((h / bh * 0.7 + br / r * 0.3) * 100)%float))
  /\ (absent_or_zero (baselineHRV processed)
      \/ absent_or_zero (latest hrv processed)
      \/ absent_or_zero (baselineRHR processed)
      \/ absent_or_zero (latest rhr processed) ->
      d_recoveryScore (derive processed) = None)
  /\ recoveryScore (Some 50%float) (Some 55%float) (Some 60%float)
       (Some 55%float) = Some 110%float.
Proof.
  split; [|split].
  - intros bh h br r Ebh Eh Ebr Er Tbh Th Tbr Tr. simpl.
    rewrite Ebh, Eh, Ebr, Er. now apply recoveryScore_truthy.
  - intros H. simpl. apply recoveryScore_falsy.
    destruct H as [H|[H|[H|H]]]; apply absent_or_zero_falsy in H; auto.
  - vm_compute. reflexivity.
Qed.

Lemma recoveryScore_spec_witness :
  d_recoveryScore (derive recovery_history) = Some 110%float.
Proof.
  refine (proj1 (recoveryScore_spec recovery_history) 50%float 55%float
            60%float 55%float _ _ _ _ _ _ _ _);
    vm_compute; reflexivity.
Defined.

(** ** Sleep-unit normalisation *)

Lemma sleepHours_absent (v : JSValue) :
  not_nullish v = false -> sleepHours_of_raw v = None.
Proof. intros H. unfold sleepHours_of_raw. now rewrite H. Qed.

Lemma sleepHours_seconds (x : float) :
  gt x 50 = true -> sleepHours_of_raw (JNum x) = Some (x / 3600)%float.
Proof. intros H. unfold sleepHours_of_raw. simpl. now rewrite H. Qed.

Lemma sleepHours_hours (x : float) :
  (x <=? 50)%float = true -> sleepHours_of_raw (JNum x) = Some x.
Proof.
  intros H. unfold sleepHours_of_raw. simpl.
  destruct (gt x 50) eqn:E; [|reflexivity].
  apply gt_not_le in E. congruence.
Qed.

(** The string branch stores the parsed number as it is: the threshold
    of the number branch is not applied to it. *)
Lemma sleepHours_parsed (s : string) :
  isNaN (parseFloat_string s) = false ->
  sleepHours_of_raw (JStr s) = Some (parseFloat_string s).
Proof. intros H. unfold sleepHours_of_raw. simpl. now rewrite H. Qed.

Lemma sleepHours_unparsable (v : JSValue) :
  (forall x, v <> JNum x) -> isNaN (parseFloat v) = true ->
  sleepHours_of_raw v = None.
Proof.
  intros Hn H. unfold sleepHours_of_raw.
  destruct v; simpl in *; try reflexivity; try (now rewrite H).
  now destruct (Hn x).
Qed.

(** C2 (the code at the diverging input): the number 27000 is converted
    to 7.5 hours and the number 50 is kept, but the string "27000" is
    parsed and kept as 27000: the > 50 rule is not applied to parsed
    strings. *)
Theorem sleepHours_string_not_converted :
  sleepHours_of_raw (JNum 27000) = Some 7.5%float
  /\ sleepHours_of_raw (JNum 50) = Some 50%float
  /\ sleepHours_of_raw (JStr "27000") = Some 27000%float
  /\ (exists d, normalize string_sleep_entry = Ok d
                /\ sleepHours d = Some 27000%float).
Proof.
  repeat split; try (vm_compute; reflexivity).
  eexists. split; vm_compute; reflexivity.
Qed.

(** ** Field resolution and coercion *)

Lemma Get_prop_of (obj : JSValue) (key : string) :
  not_nullish obj = true -> Get obj key = Ok (prop_of obj key).
Proof. destruct obj; simpl; congruence. Qed.

Lemma or_empty_not_nullish (a : JSValue) : not_nullish (or_empty a) = true.
Proof.
  unfold or_empty. destruct (truthy a) eqn:E; [|reflexivity].
  destruct a; simpl in *; congruence.
Qed.

(** [getMetric] never throws on an object and returns the value of the
    first candidate key that is neither [null] nor [undefined], or
    [null] when every candidate is. *)
Lemma getMetric_loop_spec (obj : JSValue) (keys : list string) :
  not_nullish obj = true ->
  exists v, getMetric_loop obj keys = Ok v
    /\ ((v = JNull
         /\ Forall (fun k => not_nullish (prop_of obj k) = false) keys)
        \/ (not_nullish v = true
            /\ exists pre k post, keys = pre ++ k :: post
                 /\ Forall (fun k => not_nullish (prop_of obj k) = false) pre
                 /\ prop_of obj k = v)).
Proof.
  intros Hobj. induction keys as [|key keys IH]; simpl.
  - exists JNull. split; [reflexivity|]. left. split; [reflexivity|constructor].
  - rewrite (Get_prop_of obj key Hobj). simpl.
    destruct (not_nullish (prop_of obj key)) eqn:E.
    + exists (prop_of obj key). split.
      * destruct (prop_of obj key); simpl in *; congruence.
      * right. split; [exact E|]. exists [], key, keys. repeat split; constructor.
    + simpl. destruct IH as (v & Hv & [[-> Hall]|[Hnn (pre & k & post & -> & Hpre & Hk)]]).
      * exists JNull. split; [exact Hv|]. left. split; [reflexivity|].
        constructor; assumption.
      * exists v. split; [exact Hv|]. right. split; [exact Hnn|].
        exists (key :: pre), k, post. repeat split; try assumption.
        constructor; assumption.
Qed.

Lemma getMetric_spec (obj : JSValue) (keys : list string) :
  not_nullish obj = true ->
  exists v, getMetric obj keys = Ok v
    /\ (not_nullish v = false
        <-> Forall (fun k => not_nullish (prop_of obj k) = false) keys)
    /\ (not_nullish v = true ->
        exists pre k post, keys = pre ++ k :: post
          /\ Forall (fun k => not_nullish (prop_of obj k) = false) pre
          /\ prop_of obj k = v).
Proof.
  intros Hobj. unfold getMetric.
  replace (match obj with JUndefined => JObj ∅ | _ => obj end) with obj
    by (destruct obj; simpl in *; congruence).
  destruct (getMetric_loop_spec obj keys Hobj)
    as (v & Hv & [[-> Hall]|[Hnn (pre & k & post & -> & Hpre & Hk)]]).
  - exists JNull. split; [exact Hv|]. split; [split; auto|]. discriminate.
  - exists v. split; [exact Hv|]. split.
    + split; [congruence|]. intros Hall.
      apply Forall_app in Hall as [_ Hall].
      apply Forall_cons_1 in Hall as [Hk' _]. congruence.
    + intros _. exists pre, k, post. auto.
Qed.

Lemma number_or_null_None (v : JSValue) :
  number_or_null v = None <-> not_nullish v = false.
Proof. unfold number_or_null. destruct (not_nullish v); split; congruence. Qed.

Lemma number_or_null_Some (v : JSValue) :
  not_nullish v = true -> number_or_null v = Some (Number v).
Proof. unfold number_or_null. now intros ->. Qed.

(** Peels the outermost bind of a successful computation. *)
Ltac inv_bind H :=
  match type of H with
  | JS.bind ?r _ = Ok _ =>
      let E := fresh "E" in
      destruct r eqn:E; simpl in H; [|discriminate H]
  end.

(** What a successful run of [normalize] has computed. *)
Lemma normalize_inv (entry : JSValue) (d : NormalizedDay) :
  normalize entry = Ok d ->
  exists m vh vr vs vsl vt vo vre vte,
    Get entry "metrics" = Ok m
    /\ getMetric (or_empty m) hrv_keys = Ok vh
    /\ getMetric (or_empty m) rhr_keys = Ok vr
    /\ getMetric (or_empty m) steps_keys = Ok vs
    /\ getMetric (or_empty m) sleep_keys = Ok vsl
    /\ getMetric (or_empty m) trainingLoad_keys = Ok vt
    /\ getMetric (or_empty m) spo2_keys = Ok vo
    /\ getMetric (or_empty m) respiratoryRate_keys = Ok vre
    /\ getMetric (or_empty m) temperature_keys = Ok vte
    /\ hrv d = number_or_null vh
    /\ rhr d = number_or_null vr
    /\ steps d = number_or_null vs
    /\ sleepHours d = sleepHours_of_raw vsl
    /\ trainingLoad d = number_or_null vt
    /\ spo2 d = number_or_null vo
    /\ respiratoryRate d = number_or_null vre
    /\ temperature d = number_or_null vte.
Proof.
  unfold normalize, mbind, Result_bind. intros H.
  inv_bind H. inv_bind H. inv_bind H. inv_bind H.
  inv_bind H. inv_bind H. inv_bind H. inv_bind H.
  inv_bind H. inv_bind H. inv_bind H. inv_bind H.
  injection H as <-. simpl.
  repeat eexists; eassumption.
Qed.

Lemma field_follows_resolver_intro (obj : JSValue) (d : NormalizedDay)
  (keys : list string) (field : NormalizedDay -> option float) (v : JSValue) :
  not_nullish obj = true ->
  getMetric obj keys = Ok v ->
  field d = number_or_null v ->
  field_follows_resolver obj d (keys, field).
Proof.
  intros Hobj Hv Hf.
  destruct (getMetric_spec obj keys Hobj) as (v' & Hv' & Hnone & _).
  assert (v' = v) by congruence. subst v'.
  exists v. simpl. rewrite Hf, number_or_null_None.
  repeat split; try apply Hnone; try tauto.
  apply number_or_null_Some.
Qed.

Lemma normalize_nan_entry : normalize nan_entry = Ok nan_day.
Proof. vm_compute. reflexivity. Qed.

(** C3 (as stated, refuted): for the entry with [hrv: "abc"] the resolved
    value fails the coercion, yet the field is the number NaN, not
    absent. *)
Lemma nan_field_is_not_absent : ~ absent_iff_unresolved_or_nan nan_entry.
Proof.
  intros H.
  specialize (H nan_day (JObj {[ "hrv"%string := JStr "abc" ]})
                normalize_nan_entry).
  assert (Hm : Get nan_entry "metrics"
               = Ok (JObj {[ "hrv"%string := JStr "abc" ]}))
    by (vm_compute; reflexivity).
  specialize (H Hm). apply Forall_cons_1 in H as [H _].
  assert (Hv : getMetric (or_empty (JObj {[ "hrv"%string := JStr "abc" ]}))
                 hrv_keys = Ok (JStr "abc"))
    by (vm_compute; reflexivity).
  destruct (H _ Hv) as [[_ Habs] _].
  assert (Hnan : isNaN (Number (JStr "abc")) = true)
    by (vm_compute; reflexivity).
  specialize (Habs (or_intror Hnan)). discriminate Habs.
Qed.

(** C3 (amended): for every raw record that normalises and each of the
    seven [Number]-coerced metrics, the field is absent if and only if no
    candidate key of the metrics mapping holds a non-null value; when a
    key resolves, the field is [Number] of the resolved value (NaN when
    the coercion fails). *)
Theorem normalize_field_absent_iff (entry : JSValue) (d : NormalizedDay) :
  normalize entry = Ok d ->
  exists m,
    Get entry "metrics" = Ok m
    /\ Forall (field_follows_resolver (or_empty m) d) numeric_fields.
Proof.
  intros H.
  destruct (normalize_inv entry d H)
    as (m & vh & vr & vs & vsl & vt & vo & vre & vte & Hm & Hh & Hr & Hs
        & Hsl & Ht & Ho & Hre & Hte & Fh & Fr & Fs & Fsl & Ft & Fo & Fre
        & Fte).
  exists m. split; [exact Hm|].
  pose proof (or_empty_not_nullish m) as Hobj.
  unfold numeric_fields.
  repeat (constructor;
          [eapply field_follows_resolver_intro; eassumption|]).
  constructor.
Qed.

Lemma normalize_field_absent_iff_witness :
  exists m,
    Get nan_entry "metrics" = Ok m
    /\ Forall (field_follows_resolver (or_empty m) nan_day) numeric_fields.
Proof.
  apply (normalize_field_absent_iff nan_entry nan_day).
  vm_compute. reflexivity.
Defined.

(** ** Sleep debt *)

Lemma fold_rows_by_position (pre l : list NormalizedDay) (acc : float) :
  fold_left (fun sum p => (sum + sleep_or_zero p)%float) l acc
  = fold_left (fun sum i => (sum + sleep_at (pre ++ l) i)%float)
      (seq (length pre) (length l)) acc.
Proof.
  revert pre acc. induction l as [|a l IH]; intros pre acc; [reflexivity|].
  cbn [fold_left seq length].
  assert (Ha : sleep_at (pre ++ a :: l) (length pre) = sleep_or_zero a).
  { unfold sleep_at. now rewrite list_lookup_middle by reflexivity. }
  rewrite Ha, (IH (pre ++ [a])).
  rewrite <- app_assoc, length_app. simpl.
  now rewrite Nat.add_1_r.
Qed.

Lemma slice_last_sum (processed : list NormalizedDay) :
  7 <= length processed ->
  fold_left (fun sum p => (sum + sleep_or_zero p)%float)
    (slice_last 7 processed) PrimFloat.zero
  = last7_sleep_sum processed.
Proof.
  intros Hlen. unfold slice_last, last7_sleep_sum.
  rewrite (fold_rows_by_position (take (length processed - 7) processed)).
  rewrite take_drop, length_take, length_drop.
  f_equal. f_equal; lia.
Qed.

Lemma floor_at_zero_nonneg (x : float) : lt (floor_at_zero x) 0 = false.
Proof.
  unfold floor_at_zero. destruct (0 <? x)%float eqn:E; [|reflexivity].
  destruct (lt x 0) eqn:Hneg; [|reflexivity].
  apply lt_le in Hneg. apply (lt_not_ge 0 x) in E. unfold ge in E.
  congruence.
Qed.

(** C4: sleepDebtHours is absent when the history has fewer than 7 days;
    with at least 7 days it is max(0, 52.5 - S), S being the sum of
    sleepHours over the last 7 positions (absent counted as 0), and so
    never negative; seven nights of 7 h give 3.5 and seven nights of 8 h
    give 0. *)
Theorem sleepDebtHours_spec (processed : list NormalizedDay) :
  (length processed < 7 -> d_sleepDebtHours (derive processed) = None)
  /\ (7 <= length processed ->
      d_sleepDebtHours (derive processed)
      = Some (floor_at_zero (52.5 - last7_sleep_sum processed)%float))
  /\ (forall d, d_sleepDebtHours (derive processed) = Some d ->
        lt d 0 = false)
  /\ sleepDebtHours (week_of 7) = Some 3.5%float
  /\ sleepDebtHours (week_of 8) = Some 0%float.
Proof.
  split; [|split; [|split; [|split]]].
  - intros Hlen. simpl. unfold sleepDebtHours.
    destruct (Nat.leb_spec 7 (length processed)); [lia|reflexivity].
  - intros Hlen. simpl. unfold sleepDebtHours.
    destruct (Nat.leb_spec 7 (length processed)); [|lia].
    rewrite (slice_last_sum processed Hlen). reflexivity.
  - intros d. simpl. unfold sleepDebtHours.
    destruct (7 <=? length processed)%nat; [|discriminate].
    intros [= <-]. apply floor_at_zero_nonneg.
  - vm_compute. reflexivity.
  - vm_compute. reflexivity.
Qed.

Lemma sleepDebtHours_spec_witness :
  d_sleepDebtHours (derive (week_of 7)) = Some 3.5%float
  /\ d_sleepDebtHours (derive [sleep_day 7; sleep_day 7]) = None.
Proof.
  split.
  - refine (proj1 (proj2 (sleepDebtHours_spec (week_of 7))) _).
    vm_compute. lia.
  - refine (proj1 (sleepDebtHours_spec [sleep_day 7; sleep_day 7]) _).
    vm_compute. lia.
Defined.

(** ** Target zone *)

Lemma targetZone_None (r : option float) : targetZone r = None <-> r = None.
Proof.
  destruct r as [x|]; simpl; [|tauto].
  destruct (ge x 90), (ge x 70); split; discriminate.
Qed.

Lemma targetZone_High (x : float) :
  ge x 90 = true -> targetZone (Some x) = Some High.
Proof. intros H. simpl. now rewrite H. Qed.

Lemma targetZone_Moderate (x : float) :
  ge x 70 = true -> lt x 90 = true -> targetZone (Some x) = Some Moderate.
Proof.
  intros H70 H90. simpl. now rewrite (lt_not_ge x 90 H90), H70.
Qed.

Lemma targetZone_Low (x : float) :
  ge x 90 = false -> ge x 70 && lt x 90 = false ->
  targetZone (Some x) = Some Low.
Proof.
  intros H90 Hmid. simpl. rewrite H90.
  destruct (ge x 70) eqn:H70; [|reflexivity].
  simpl in Hmid.
  assert (Hn : isNaN 90 = false) by reflexivity.
  rewrite (unordered_not_ge x 90 70 Hn H90 Hmid) in H70. discriminate.
Qed.

(** C5: targetZone is absent exactly when recoveryScore is absent; when
    recoveryScore is defined the zone is High for a score >= 90, Moderate
    for 70 <= score < 90 and Low otherwise; 90 is High, 89 and 70 are
    Moderate, 69 is Low. *)
Theorem targetZone_spec (processed : list NormalizedDay) :
  (d_targetZone (derive processed) = None
   <-> d_recoveryScore (derive processed) = None)
  /\ (forall x, d_recoveryScore (derive processed) = Some x ->
        (ge x 90 = true -> d_targetZone (derive processed) = Some High)
        /\ (ge x 70 = true -> lt x 90 = true ->
            d_targetZone (derive processed) = Some Moderate)
        /\ (ge x 90 = false -> ge x 70 && lt x 90 = false ->
            d_targetZone (derive processed) = Some Low))
  /\ targetZone (Some 90%float) = Some High
  /\ targetZone (Some 89%float) = Some Moderate
  /\ targetZone (Some 70%float) = Some Moderate
  /\ targetZone (Some 69%float) = Some Low.
Proof.
  change (d_targetZone (derive processed))
    with (targetZone (d_recoveryScore (derive processed))).
  split; [apply targetZone_None|].
  split; [|repeat split; vm_compute; reflexivity].
  intros x ->. split; [apply targetZone_High|].
  split; [apply targetZone_Moderate|apply targetZone_Low].
Qed.

Lemma targetZone_spec_witness :
  d_targetZone (derive recovery_history) = Some High.
Proof.
  refine (proj1 (proj1 (proj2 (targetZone_spec recovery_history))
                   110%float _) _);
    vm_compute; reflexivity.
Defined.

(** ** Target sleep *)

Lemma targetSleep_value (r : float) (exertion debt : option float) :
  targetSleep (Some r) exertion debt
  = Some (8 + 0.5 * of_Z (increments r exertion debt))%float.
Proof.
  unfold targetSleep, increments.
  change (match exertion with Some e => gt e 120 | None => false end)
    with (present_and_gt exertion 120).
  change (match debt with Some d => gt d 3 | None => false end)
    with (present_and_gt debt 3).
  destruct (lt r 80), (present_and_gt exertion 120), (present_and_gt debt 3);
    vm_compute; reflexivity.
Qed.

Lemma targetSleep_range (score exertion debt : option float) (t : float) :
  targetSleep score exertion debt = Some t ->
  (8 <=? t)%float = true /\ (t <=? 9.5)%float = true.
Proof.
  destruct score as [r|]; [|discriminate].
  rewrite targetSleep_value. intros [= <-]. unfold increments.
  destruct (lt r 80), (present_and_gt exertion 120), (present_and_gt debt 3);
    split; vm_compute; reflexivity.
Qed.

(** C6: targetSleepHours is absent exactly when recoveryScore is absent;
    when defined it is 8.0 plus 0.5 for each condition that holds among
    recoveryScore < 80, exertionScore present and > 120, sleepDebtHours
    present and > 3; hence it lies between 8.0 and 9.5. *)
Theorem targetSleep_spec (processed : list NormalizedDay) :
  (d_targetSleep (derive processed) = None
   <-> d_recoveryScore (derive processed) = None)
  /\ (forall r, d_recoveryScore (derive processed) = Some r ->
        d_targetSleep (derive processed)
        = Some (8 + 0.5 * of_Z (increments r
                                  (d_exertionScore (derive processed))
                                  (d_sleepDebtHours (derive processed))))
            %float)
  /\ (forall t, d_targetSleep (derive processed) = Some t ->
        (8 <=? t)%float = true /\ (t <=? 9.5)%float = true).
Proof.
  change (d_targetSleep (derive processed))
    with (targetSleep (d_recoveryScore (derive processed))
            (d_exertionScore (derive processed))
            (d_sleepDebtHours (derive processed))).
  split; [|split].
  - destruct (d_recoveryScore (derive processed)) as [r|].
    + rewrite targetSleep_value. split; discriminate.
    + simpl. tauto.
  - intros r ->. apply targetSleep_value.
  - intros t. apply targetSleep_range.
Qed.

Lemma targetSleep_spec_witness :
  d_targetSleep (derive tired_week) = Some 9%float.
Proof.
  refine (proj1 (proj2 (targetSleep_spec tired_week)) 62%float _).
  vm_compute. reflexivity.
Defined.

(** ** Trend series *)

Section Trends.

Variables (bHRV bRHR bLoad : option float).
Variable processed : list NormalizedDay.

Lemma trend_lengths :
  length (labels processed) = length processed
  /\ length (recoveryTrend bHRV bRHR processed) = length processed
  /\ length (exertionTrend bLoad processed) = length processed.
Proof.
  unfold labels, recoveryTrend, exertionTrend.
  now rewrite !length_map.
Qed.

Variables (i : nat) (p : NormalizedDay).
Hypothesis Hp : processed !! i = Some p.

Lemma labels_at : labels processed !! i = Some (date p).
Proof.
  unfold labels. change (map date processed) with (date <$> processed).
  now rewrite list_lookup_fmap, Hp.
Qed.

Lemma recoveryTrend_at :
  recoveryTrend bHRV bRHR processed !! i
  = Some (if truthy_opt bHRV && truthy_opt (hrv p)
             && truthy_opt bRHR && truthy_opt (rhr p)
          then match bHRV, hrv p, bRHR, rhr p with
               | Some bh, Some h, Some br, Some r =>
                   Some (recovery_ratio h bh br r)
               | _, _, _, _ => None
               end
          else None).
Proof.
  unfold recoveryTrend.
  match goal with
  | |- map ?f _ !! _ = _ => change (map f processed) with (f <$> processed)
  end.
  now rewrite list_lookup_fmap, Hp.
Qed.

Lemma exertionTrend_at :
  exertionTrend bLoad processed !! i
  = Some (if truthy_opt bLoad && truthy_opt (trainingLoad p)
          then match bLoad, trainingLoad p with
               | Some bl, Some l => Some (exertion_ratio l bl)
               | _, _ => None
               end
          else None).
Proof.
  unfold exertionTrend.
  match goal with
  | |- map ?f _ !! _ = _ => change (map f processed) with (f <$> processed)
  end.
  now rewrite list_lookup_fmap, Hp.
Qed.

Lemma recoveryTrend_gap :
  absent_or_zero bHRV \/ absent_or_zero (hrv p)
  \/ absent_or_zero bRHR \/ absent_or_zero (rhr p) ->
  recoveryTrend bHRV bRHR processed !! i = Some None.
Proof.
  intros H. rewrite recoveryTrend_at.
  destruct H as [H|[H|[H|H]]]; apply absent_or_zero_falsy in H;
    rewrite H, ?andb_false_r; reflexivity.
Qed.

Lemma recoveryTrend_value (bh h br r : float) :
  bHRV = Some bh -> hrv p = Some h -> bRHR = Some br -> rhr p = Some r ->
  truthy_num bh = true -> truthy_num h = true ->
  truthy_num br = true -> truthy_num r = true ->
  recoveryTrend bHRV bRHR processed !! i
  = Some (Some ((h / bh * 0.7 + br / r * 0.3) * 100)%float).
Proof.
  intros Ebh Eh Ebr Er Tbh Th Tbr Tr.
  rewrite recoveryTrend_at, Ebh, Eh, Ebr, Er. simpl.
  now rewrite Tbh, Th, Tbr, Tr.
Qed.

Lemma exertionTrend_gap :
  absent_or_zero bLoad \/ absent_or_zero (trainingLoad p) ->
  exertionTrend bLoad processed !! i = Some None.
Proof.
  intros H. rewrite exertionTrend_at.
  destruct H as [H|H]; apply absent_or_zero_falsy in H;
    rewrite H, ?andb_false_r; reflexivity.
Qed.

Lemma exertionTrend_value (bl l : float) :
  bLoad = Some bl -> trainingLoad p = Some l ->
  truthy_num bl = true -> truthy_num l = true ->
  exertionTrend bLoad processed !! i
  = Some (Some (l / bl * 100)%float).
Proof.
  intros Ebl El Tbl Tl.
  rewrite exertionTrend_at, Ebl, El. simpl.
  now rewrite Tbl, Tl.
Qed.

End Trends.

(** C7: for a history of length N and any baselines, dates, recoveryTrend
    and exertionTrend all have length N; at each position the trend holds
    an explicit absent entry when the baseline or the day's value is
    missing or zero, and otherwise the unrounded recovery / exertion
    formula of that day. *)
Theorem trends_spec (bHRV bRHR bLoad : option float)
  (processed : list NormalizedDay) :
  (length (labels processed) = length processed
   /\ length (recoveryTrend bHRV bRHR processed) = length processed
   /\ length (exertionTrend bLoad processed) = length processed)
  /\ forall i p, processed !! i = Some p ->
       labels processed !! i = Some (date p)
       /\ (absent_or_zero bHRV \/ absent_or_zero (hrv p)
           \/ absent_or_zero bRHR \/ absent_or_zero (rhr p) ->
           recoveryTrend bHRV bRHR processed !! i = Some None)
       /\ (forall bh h br r,
             bHRV = Some bh -> hrv p = Some h ->
             bRHR = Some br -> rhr p = Some r ->
             truthy_num bh = true -> truthy_num h = true ->
             truthy_num br = true -> truthy_num r = true ->
             recoveryTrend bHRV bRHR processed !! i
             = Some (Some ((h / bh * 0.7 + br / r * 0.3) * 100)%float))
       /\ (absent_or_zero bLoad \/ absent_or_zero (trainingLoad p) ->
           exertionTrend bLoad processed !! i = Some None)
       /\ (forall bl l,
             bLoad = Some bl -> trainingLoad p = Some l ->
             truthy_num bl = true -> truthy_num l = true ->
             exertionTrend bLoad processed !! i
             = Some (Some (l / bl * 100)%float)).
Proof.
  split; [apply trend_lengths|].
  intros i p Hp. split; [exact (labels_at processed i p Hp)|].
  split; [exact (recoveryTrend_gap bHRV bRHR processed i p Hp)|].
  split; [exact (recoveryTrend_value bHRV bRHR processed i p Hp)|].
  split; [exact (exertionTrend_gap bLoad processed i p Hp)|].
  exact (exertionTrend_value bLoad processed i p Hp).
Qed.

Lemma trends_spec_witness :
  recoveryTrend (Some 50%float) (Some 60%float) recovery_history !! 1
  = Some (Some ((55 / 50 * 0.7 + 60 / 55 * 0.3) * 100)%float)
  /\ exertionTrend (Some 100%float) recovery_history !! 1 = Some None.
Proof.
  destruct (proj2 (trends_spec (Some 50%float) (Some 60%float)
                     (Some 100%float) recovery_history)
              1 (recovery_day 55 55) eq_refl)
    as (_ & _ & Hval & Hgap & _).
  split.
  - apply (Hval 50%float 55%float 60%float 55%float); reflexivity.
  - apply Hgap. right. exact I.
Defined.

(** ** Baselines *)

Lemma kept_Some (v : option float) (x : float) :
  kept v = Some x <-> v = Some x /\ isNaN x = false.
Proof.
  unfold kept. destruct v as [y|]; [|split; [discriminate|intros [? _]; discriminate]].
  destruct (isNaN y) eqn:E; simpl; split.
  - discriminate.
  - intros [[= ->] H]. congruence.
  - intros [= ->]. auto.
  - intros [[= ->] _]. reflexivity.
Qed.

Lemma mean_None (vs : list float) : mean vs = None <-> vs = [].
Proof. destruct vs; simpl; split; congruence. Qed.

Lemma metricValues_elem (sel : NormalizedDay -> option float)
  (processed : list NormalizedDay) (x : float) :
  x ∈ metricValues sel processed
  <-> exists p, p ∈ processed /\ sel p = Some x /\ isNaN x = false.
Proof.
  unfold metricValues. rewrite list_elem_of_omap.
  split; intros (p & Hp & H); exists p; (split; [exact Hp|]);
    now apply kept_Some.
Qed.

Lemma metricValues_nil (sel : NormalizedDay -> option float)
  (processed : list NormalizedDay) :
  metricValues sel processed = []
  <-> forall p, p ∈ processed ->
        sel p = None \/ exists x, sel p = Some x /\ isNaN x = true.
Proof.
  split.
  - intros Hnil p Hp. destruct (sel p) as [x|] eqn:E; [|now left].
    right. exists x. split; [reflexivity|].
    destruct (isNaN x) eqn:En; [reflexivity|].
    assert (Hx : x ∈ metricValues sel processed)
      by (apply metricValues_elem; eauto).
    rewrite Hnil in Hx. now apply not_elem_of_nil in Hx.
  - intros Hall. destruct (metricValues sel processed) as [|x vs] eqn:E;
      [reflexivity|].
    assert (Hx : x ∈ metricValues sel processed)
      by (rewrite E; apply list_elem_of_here).
    apply metricValues_elem in Hx as (p & Hp & Hs & Hn).
    destruct (Hall p Hp) as [H|(y & H & Hy)]; congruence.
Qed.

Lemma metricValues_perm (sel : NormalizedDay -> option float)
  (l1 l2 : list NormalizedDay) :
  l1 ≡ₚ l2 -> metricValues sel l1 ≡ₚ metricValues sel l2.
Proof. intros H. unfold metricValues. now rewrite H. Qed.

Lemma readings_perm : readings ≡ₚ readings_reversed.
Proof. exact (Permutation_rev readings). Qed.

(** C8 (as stated, refuted): the filter keeps every number that is not
    NaN, so an infinite reading (["Infinity"] in the raw record) gives an
    infinite baseline where the mean of the finite values is absent; and
    the sum is a left-to-right floating-point sum, so reordering the
    readings 45.1, 52.3, 48.7 changes the baseline. *)
Lemma baseline_not_finite_mean_nor_order_independent :
  (normalize infinite_entry = Ok (hrv_day infinity)
   /\ baseline hrv [hrv_day infinity] = Some infinity
   /\ finite_mean hrv [hrv_day infinity] = None
   /\ baseline hrv [hrv_day infinity] <> finite_mean hrv [hrv_day infinity])
  /\ (readings ≡ₚ readings_reversed
      /\ baseline hrv readings = Some 48.70000000000001%float
      /\ baseline hrv readings_reversed = Some 48.699999999999996%float
      /\ baseline hrv readings <> baseline hrv readings_reversed).
Proof.
  split.
  - repeat split; try (vm_compute; reflexivity).
    vm_compute. discriminate.
  - split; [|repeat split; try (vm_compute; reflexivity)].
    + exact readings_perm.
    + vm_compute. intros H. discriminate H.
Qed.

(** C8 (amended): the baseline is the left-to-right sum, starting from 0,
    of the selected values that are numbers other than NaN (infinities
    included) divided by their count; it is absent exactly when there is
    no such value; a permutation of the history permutes these values and
    keeps their count and the presence of the baseline (its value may
    change by rounding); the baseline of 60, 70, 80 is 70 and the
    baseline of an empty history is absent. *)
Theorem baseline_spec (sel : NormalizedDay -> option float)
  (processed : list NormalizedDay) :
  (baselineHRV processed = baseline hrv processed
   /\ baselineRHR processed = baseline rhr processed
   /\ baselineLoad processed = baseline trainingLoad processed)
  /\ (forall x, x ∈ metricValues sel processed
             <-> exists p, p ∈ processed /\ sel p = Some x
                           /\ isNaN x = false)
  /\ (metricValues sel processed <> [] ->
      baseline sel processed
      = Some (fold_left PrimFloat.add (metricValues sel processed) 0
              / of_Z (Z.of_nat (length (metricValues sel processed))))%float)
  /\ (baseline sel processed = None
      <-> forall p, p ∈ processed ->
            sel p = None \/ exists x, sel p = Some x /\ isNaN x = true)
  /\ (forall processed', processed ≡ₚ processed' ->
        metricValues sel processed ≡ₚ metricValues sel processed'
        /\ length (metricValues sel processed)
           = length (metricValues sel processed')
        /\ (baseline sel processed = None
            <-> baseline sel processed' = None))
  /\ baseline hrv [hrv_day 60; hrv_day 70; hrv_day 80] = Some 70%float
  /\ baseline hrv [] = None.
Proof.
  split; [repeat split|].
  split; [apply metricValues_elem|].
  split.
  { unfold baseline, mean. intros Hne.
    destruct (metricValues sel processed); [congruence|reflexivity]. }
  split.
  { unfold baseline. rewrite mean_None. apply metricValues_nil. }
  split; [|split; vm_compute; reflexivity].
  intros processed' Hperm.
  pose proof (metricValues_perm sel _ _ Hperm) as Hvs.
  split; [exact Hvs|]. split; [now rewrite Hvs|].
  unfold baseline. rewrite !mean_None. split; intros Hnil.
  - rewrite Hnil in Hvs. now apply Permutation_nil_l in Hvs.
  - rewrite Hnil in Hvs. now apply Permutation_nil_r in Hvs.
Qed.

Lemma baseline_spec_witness :
  baseline hrv readings
  = Some (fold_left PrimFloat.add (metricValues hrv readings) 0
          / of_Z (Z.of_nat (length (metricValues hrv readings))))%float
  /\ length (metricValues hrv readings)
     = length (metricValues hrv readings_reversed).
Proof.
  split.
  - refine (proj1 (proj2 (proj2 (baseline_spec hrv readings))) _).
    vm_compute. discriminate.
  - refine (proj1 (proj2 (proj1 (proj2 (proj2 (proj2 (proj2
              (baseline_spec hrv readings))))) readings_reversed _))).
    exact readings_perm.
Defined.

(** ** The pipeline never throws on raw records *)

Lemma getMetric_ok (obj : JSValue) (keys : list string) :
  not_nullish obj = true -> exists v, getMetric obj keys = Ok v.
Proof.
  intros Hobj. destruct (getMetric_spec obj keys Hobj) as (v & Hv & _).
  now exists v.
Qed.








(** Outside that shape the page does throw: a [null] element, or a
    timestamp that is a number. *)
Lemma Home_throws_outside_shape :
  Home [JNull] = Throw TypeError
  /\ Home [JObj {[ "ingest_date"%string := JNum 1714545000 ]}]
     = Throw TypeError.
Proof. split; vm_compute; reflexivity. Qed.

(** ** Normalisation is per record *)



(** ** Further properties of the page *)

Lemma getMetric_not_nullish (obj : JSValue) (keys : list string) :
  not_nullish obj = true -> getMetric obj keys = getMetric_loop obj keys.
Proof. intros H. unfold getMetric. destruct obj; simpl in *; congruence. Qed.

(** X1: on an object, [getMetric] returns the value of the first
    candidate key, in list order, whose value is neither [null] nor
    [undefined] (later synonyms are ignored, the value is returned as it
    is), and [null] when no candidate key has such a value. *)
Theorem getMetric_first_match (obj : JSValue) (keys : list string) :
  not_nullish obj = true ->
  (forall pre k post,
      keys = pre ++ k :: post ->
      Forall (fun k' => not_nullish (prop_of obj k') = false) pre ->
      not_nullish (prop_of obj k) = true ->
      getMetric obj keys = Ok (prop_of obj k))
  /\ (Forall (fun k' => not_nullish (prop_of obj k') = false) keys ->
      getMetric obj keys = Ok JNull).
Proof.
  intros Hobj. rewrite (getMetric_not_nullish obj keys Hobj). split.
  - intros pre k post -> Hpre Hk.
    induction Hpre as [|k' pre Hk' _ IH]; simpl;
      rewrite (Get_prop_of obj _ Hobj); simpl.
    + rewrite Hk. destruct (prop_of obj k); simpl in *; congruence.
    + rewrite Hk'. simpl. exact IH.
  - induction 1 as [|k' ks Hk' _ IH]; simpl; [reflexivity|].
    rewrite (Get_prop_of obj _ Hobj). simpl. rewrite Hk'. simpl. exact IH.
Qed.

Lemma getMetric_first_match_witness :
  getMetric synonym_metrics hrv_keys = Ok (JNum 48).
Proof.
  refine (proj1 (getMetric_first_match synonym_metrics hrv_keys eq_refl)
            ["hrv"; "hrvAverage"; "hrv_average"]%string "averageHrv"%string
            ["HRV"; "hrvAvg"]%string eq_refl _ eq_refl).
  repeat constructor.
Defined.


Lemma substring_length_le (n m : nat) (s : string) :
  String.length (String.substring n m s) <= m.
Proof.
  revert n m. induction s as [|c s IH]; intros [|n] [|m]; simpl;
    try lia.
  - specialize (IH 0 m). lia.
  - apply (IH n 0).
  - apply (IH n (S m)).
Qed.

(** On an entry that is not [null]/[undefined] the callback throws when
    the timestamp is truthy and not a string, and otherwise returns a row
    dated by [date_of]. *)
Lemma normalize_cases (entry : JSValue) :
  not_nullish entry = true ->
  if truthy (prop_of entry "ingest_date")
     && negb (is_string (prop_of entry "ingest_date"))
  then normalize entry = Throw TypeError
  else exists row, normalize entry = Ok row /\ date row = date_of entry.
Proof.
  intros Hent. unfold normalize, mbind, Result_bind, date_of.
  rewrite !(Get_prop_of entry _ Hent). simpl.
  set (metrics := or_empty (prop_of entry "metrics")).
  assert (Hobj : not_nullish metrics = true) by apply or_empty_not_nullish.
  destruct (getMetric_ok metrics hrv_keys Hobj) as (vh & Hh).
  destruct (getMetric_ok metrics rhr_keys Hobj) as (vr & Hr).
  destruct (getMetric_ok metrics steps_keys Hobj) as (vs & Hs).
  destruct (getMetric_ok metrics sleep_keys Hobj) as (vsl & Hsl).
  destruct (getMetric_ok metrics trainingLoad_keys Hobj) as (vt & Ht).
  destruct (getMetric_ok metrics spo2_keys Hobj) as (vo & Ho).
  destruct (getMetric_ok metrics respiratoryRate_keys Hobj) as (vre & Hre).
  destruct (getMetric_ok metrics temperature_keys Hobj) as (vte & Hte).
  rewrite Hh, Hr, Hs, Hsl, Ht, Ho, Hre, Hte.
  destruct (prop_of entry "ingest_date") as [| |b|x|s|o]; simpl;
    eauto.
  - destruct b; simpl; eauto.
  - destruct (truthy_num x); simpl; eauto.
  - destruct (negb (String.eqb s "")) eqn:E; simpl; eauto.
    apply negb_false_iff, String.eqb_eq in E. subst s. eauto.
Qed.




(** X4: the [date] of a row is the first ten characters of the entry's
    [ingest_date] when that is a string (the calendar day of an ISO
    timestamp) and the empty string when it is missing, [null] or
    another falsy value; it never has more than ten characters. *)
Theorem normalize_date (entry : JSValue) (row : NormalizedDay) :
  normalize entry = Ok row ->
  date row = date_of entry
  /\ String.length (date row) <= 10
  /\ (forall s, prop_of entry "ingest_date" = JStr s ->
        date row = String.substring 0 10 s)
  /\ (truthy (prop_of entry "ingest_date") = false -> date row = ""%string).
Proof.
  intros Hrow.
  assert (Hent : not_nullish entry = true).
  { destruct entry; try reflexivity; discriminate Hrow. }
  pose proof (normalize_cases entry Hent) as Hc.
  destruct (truthy (prop_of entry "ingest_date")
            && negb (is_string (prop_of entry "ingest_date"))) eqn:Hbad;
    [congruence|].
  destruct Hc as (row' & Hrow' & Hdate).
  assert (row' = row) by congruence. subst row'.
  split; [exact Hdate|]. rewrite Hdate. unfold date_of.
  split; [|split].
  - destruct (prop_of entry "ingest_date"); simpl; try lia.
    apply substring_length_le.
  - intros s ->. reflexivity.
  - destruct (prop_of entry "ingest_date") as [| |b|x|s|o]; simpl;
      try reflexivity.
    intros E. apply negb_false_iff, String.eqb_eq in E. now subst s.
Qed.

Lemma normalize_date_witness :
  exists row, normalize synonym_entry = Ok row
              /\ date row = "2024-05-04"%string.
Proof.
  assert (H : normalize synonym_entry
              = Ok (mkDay "2024-05-04" (Some 48%float) None None None None
                      None None None))
    by (vm_compute; reflexivity).
  eexists. split; [exact H|].
  exact (proj1 (normalize_date synonym_entry _ H)).
Defined.

(** X5: sleepQuality is absent exactly when the latest day has no
    sleepHours; otherwise it is Excellent from 7.5 hours, Average from 6
    up to (not including) 7.5, and Poor for anything else, a NaN
    included. *)
Theorem sleepQuality_spec (processed : list NormalizedDay) :
  (d_sleepQuality (derive processed) = None
   <-> latest sleepHours processed = None)
  /\ (forall h, latest sleepHours processed = Some h ->
        (ge h 7.5 = true -> d_sleepQuality (derive processed) = Some Excellent)
        /\ (ge h 6 = true -> lt h 7.5 = true ->
            d_sleepQuality (derive processed) = Some Average)
        /\ (ge h 7.5 = false -> ge h 6 && lt h 7.5 = false ->
            d_sleepQuality (derive processed) = Some Poor)).
Proof.
  change (d_sleepQuality (derive processed))
    with (sleepQuality (latest sleepHours processed)).
  destruct (latest sleepHours processed) as [h|]; simpl.
  - split; [split; [destruct (ge h 7.5), (ge h 6)|]; discriminate|].
    intros h' [= <-]. split; [|split].
    + now intros ->.
    + intros H6 H75. now rewrite (lt_not_ge h 7.5 H75), H6.
    + intros H75 Hmid. rewrite H75.
      destruct (ge h 6) eqn:H6; [|reflexivity]. simpl in Hmid.
      assert (Hn : isNaN 7.5 = false) by reflexivity.
      rewrite (unordered_not_ge h 7.5 6 Hn H75 Hmid) in H6. discriminate.
  - split; [tauto|]. intros h [=].
Qed.

Lemma sleepQuality_spec_witness :
  d_sleepQuality (derive (week_of 7 ++ [vitals_day])) = Some Average.
Proof.
  refine (proj1 (proj2 (proj2 (sleepQuality_spec (week_of 7 ++ [vitals_day]))
                          6.5%float eq_refl)) _ _);
    vm_compute; reflexivity.
Defined.

Lemma alerts_flags (a b c : option float) :
  alerts a b c
  = (if present_and_lt a 95 then [LowSpO2] else [])
    ++ (if present_and_gt b 20 then [HighRespiratoryRate] else [])
    ++ (if present_and_gt c 38 then [ElevatedTemperature] else []).
Proof. destruct a, b, c; reflexivity. Qed.

(** X6: each alert is raised exactly when its vital of the latest day is
    present and beyond its threshold (SpO2 below 95, respiratory rate
    above 20, temperature above 38); the alerts come without duplicates
    in that fixed order, and a history without days raises none. *)
Theorem alerts_spec (processed : list NormalizedDay) :
  (LowSpO2 ∈ d_alerts (derive processed)
   <-> present_and_lt (latest spo2 processed) 95 = true)
  /\ (HighRespiratoryRate ∈ d_alerts (derive processed)
      <-> present_and_gt (latest respiratoryRate processed) 20 = true)
  /\ (ElevatedTemperature ∈ d_alerts (derive processed)
      <-> present_and_gt (latest temperature processed) 38 = true)
  /\ sublist (d_alerts (derive processed))
       [LowSpO2; HighRespiratoryRate; ElevatedTemperature]
  /\ NoDup (d_alerts (derive processed))
  /\ (processed = [] -> d_alerts (derive processed) = []).
Proof.
  change (d_alerts (derive processed))
    with (alerts (latest spo2 processed) (latest respiratoryRate processed)
            (latest temperature processed)).
  split; [|split; [|split; [|split; [|split; [|intros ->; reflexivity]]]]];
    rewrite alerts_flags;
    try (destruct (present_and_lt (latest spo2 processed) 95),
           (present_and_gt (latest respiratoryRate processed) 20),
           (present_and_gt (latest temperature processed) 38); simpl).
  all: try (rewrite ?elem_of_cons, ?elem_of_nil; intuition congruence).
  all: try (repeat first [ apply sublist_nil_l
                         | apply sublist_skip
                         | apply sublist_cons ]; fail).
  all: try (repeat (constructor;
                    [rewrite ?elem_of_cons, ?elem_of_nil; intuition congruence|]);
            constructor; fail).
Qed.

Lemma alerts_spec_witness :
  d_alerts (derive []) = []
  /\ LowSpO2 ∈ d_alerts (derive [vitals_day])
  /\ ElevatedTemperature ∈ d_alerts (derive [vitals_day]).
Proof.
  split; [|split].
  - exact (proj2 (proj2 (proj2 (proj2 (proj2 (alerts_spec []))))) eq_refl).
  - apply (proj1 (alerts_spec [vitals_day])). vm_compute. reflexivity.
  - apply (proj1 (proj2 (proj2 (alerts_spec [vitals_day])))).
    vm_compute. reflexivity.
Defined.

(** X7: the two headline scores are the rounded last points of the two
    chart series: recoveryScore is [Math.round] of the last entry of
    recoveryTrend (absent when that entry is absent or there is no day),
    and likewise exertionScore for exertionTrend. *)
Theorem scores_round_last_trend_point (processed : list NormalizedDay) :
  d_recoveryScore (derive processed)
  = Math_round <$> mjoin (last (d_recoveryTrend (derive processed)))
  /\ d_exertionScore (derive processed)
     = Math_round <$> mjoin (last (d_exertionTrend (derive processed))).
Proof.
  simpl. unfold recoveryTrend, exertionTrend, recoveryScore, exertionScore,
    latest.
  split.
  - match goal with
    | |- context [last (map ?f processed)] =>
        change (map f processed) with (f <$> processed)
    end.
    rewrite fmap_last.
    destruct (last processed) as [p|]; simpl.
    + destruct (truthy_opt (baselineHRV processed)
                && truthy_opt (hrv p) && truthy_opt (baselineRHR processed)
                && truthy_opt (rhr p)); [|reflexivity].
      destruct (baselineHRV processed), (hrv p), (baselineRHR processed),
        (rhr p); reflexivity.
    + now rewrite !andb_false_r.
  - match goal with
    | |- context [last (map ?f processed)] =>
        change (map f processed) with (f <$> processed)
    end.
    rewrite fmap_last.
    destruct (last processed) as [p|]; simpl.
    + destruct (truthy_opt (baselineLoad processed)
                && truthy_opt (trainingLoad p)); [|reflexivity].
      destruct (baselineLoad processed), (trainingLoad p); reflexivity.
    + now rewrite !andb_false_r.
Qed.

(** X8: when no day of the history has a usable HRV (each is absent or
    NaN), or none has a usable resting heart rate, the recovery score,
    the target zone and the target sleep are absent and every entry of
    the recovery trend is a gap. *)
Theorem no_baseline_no_recovery (processed : list NormalizedDay) :
  (forall p, p ∈ processed ->
       hrv p = None \/ exists x, hrv p = Some x /\ isNaN x = true)
  \/ (forall p, p ∈ processed ->
        rhr p = None \/ exists x, rhr p = Some x /\ isNaN x = true) ->
  d_recoveryScore (derive processed) = None
  /\ d_targetZone (derive processed) = None
  /\ d_targetSleep (derive processed) = None
  /\ Forall (fun v => v = None) (d_recoveryTrend (derive processed)).
Proof.
  intros Hno.
  assert (Hb : truthy_opt (baselineHRV processed)
               && truthy_opt (baselineRHR processed) = false).
  { destruct Hno as [Hno|Hno].
    - apply (metricValues_nil hrv) in Hno.
      unfold baselineHRV, hrvValues. now rewrite Hno.
    - apply (metricValues_nil rhr) in Hno.
      unfold baselineRHR, rhrValues. rewrite Hno. apply andb_false_r. }
  assert (Hscore : d_recoveryScore (derive processed) = None).
  { simpl. unfold recoveryScore.
    destruct (truthy_opt (baselineHRV processed)),
      (truthy_opt (baselineRHR processed)); try discriminate;
      now rewrite ?andb_false_r. }
  split; [exact Hscore|].
  change (d_targetZone (derive processed))
    with (targetZone (d_recoveryScore (derive processed))).
  change (d_targetSleep (derive processed))
    with (targetSleep (d_recoveryScore (derive processed))
            (d_exertionScore (derive processed))
            (d_sleepDebtHours (derive processed))).
  rewrite Hscore. repeat split.
  simpl. unfold recoveryTrend. apply Forall_forall. intros v Hv.
  apply list_elem_of_In, in_map_iff in Hv as (p & <- & _).
  destruct (truthy_opt (baselineHRV processed)),
    (truthy_opt (baselineRHR processed)); try discriminate;
    now rewrite ?andb_false_r.
Qed.

Lemma no_baseline_no_recovery_witness :
  d_recoveryScore (derive (week_of 7)) = None
  /\ d_targetSleep (derive (week_of 7)) = None.
Proof.
  destruct (no_baseline_no_recovery (week_of 7)) as (H1 & _ & H3 & _).
  - left. intros p Hp. left.
    unfold week_of in Hp. apply elem_of_replicate in Hp as [-> _].
    reflexivity.
  - split; assumption.
Defined.

Lemma slice_last_app {A} (pre w : list A) (n : nat) :
  length w = n -> slice_last n (pre ++ w) = w.
Proof.
  intros <-. unfold slice_last. rewrite length_app.
  replace (length pre + length w - length w) with (length pre) by lia.
  apply drop_app_length.
Qed.

(** X9: the sleep debt is a function of the last seven rows only: days
    before them, however many and whatever they hold, do not change
    it. *)
Theorem sleepDebt_last_week_only (pre week : list NormalizedDay) :
  length week = 7 ->
  d_sleepDebtHours (derive (pre ++ week)) = d_sleepDebtHours (derive week).
Proof.
  intros Hlen. simpl. unfold sleepDebtHours.
  rewrite (slice_last_app pre week 7 Hlen).
  rewrite (slice_last_app [] week 7 Hlen : slice_last 7 week = week).
  rewrite length_app, Hlen.
  destruct (Nat.leb_spec 7 (length pre + 7)); [reflexivity|lia].
Qed.

Lemma sleepDebt_last_week_only_witness :
  d_sleepDebtHours (derive (week_of 2 ++ [vitals_day] ++ week_of 7))
  = d_sleepDebtHours (derive (week_of 7)).
Proof.
  apply (sleepDebt_last_week_only (week_of 2 ++ [vitals_day]) (week_of 7)).
  reflexivity.
Defined.

(** X10: a sleep value that is not a number never becomes a NaN
    sleepHours (it is either absent or the number [parseFloat] found),
    whereas a number is always kept, converted or not. *)
Theorem sleepHours_never_nan_from_text (sleepRaw : JSValue) :
  ((forall x, sleepRaw <> JNum x) ->
   forall h, sleepHours_of_raw sleepRaw = Some h -> isNaN h = false)
  /\ (forall x, exists h, sleepHours_of_raw (JNum x) = Some h).
Proof.
  split.
  - intros Hnum h. unfold sleepHours_of_raw.
    destruct sleepRaw as [| |b|x|s|o]; simpl; try discriminate.
    + now destruct (Hnum x).
    + destruct (isNaN (parseFloat_string s)) eqn:E; simpl; [discriminate|].
      now intros [= <-].
  - intros x. unfold sleepHours_of_raw. simpl.
    destruct (gt x 50); eauto.
Qed.

Lemma sleepHours_never_nan_from_text_witness :
  isNaN 7.5 = false.
Proof.
  refine (proj1 (sleepHours_never_nan_from_text (JStr "7.5 h")) _ 7.5%float _).
  - intros x. discriminate.
  - vm_compute. reflexivity.
Defined.

(** ** The ingest route *)

Lemma substring_all (s : string) : String.substring 0 (String.length s) s = s.
Proof. induction s as [|c s IH]; simpl; [reflexivity|now rewrite IH]. Qed.

Lemma append_cons (a : ascii) (p t : string) :
  (String a p +:+ t)%string = String a (p +:+ t)%string.
Proof. reflexivity. Qed.

Lemma append_nil (t : string) : ("" +:+ t)%string = t.
Proof. reflexivity. Qed.

Lemma prefix_split (p h : string) :
  String.prefix p h = true ->
  h = (p +:+ String.substring (String.length p)
               (String.length h - String.length p) h)%string.
Proof.
  revert h. induction p as [|a p IH]; intros h.
  - intros _. rewrite append_nil. simpl.
    rewrite Nat.sub_0_r. symmetry. apply substring_all.
  - destruct h as [|b h]; simpl; [discriminate|].
    destruct (ascii_dec a b) as [->|]; [|discriminate].
    intros H. rewrite append_cons. f_equal. now apply IH.
Qed.

Lemma prefix_append (p t : string) : String.prefix p (p +:+ t) = true.
Proof.
  induction p as [|a p IH].
  - rewrite append_nil. now destruct t.
  - rewrite append_cons. simpl.
    destruct (ascii_dec a a); [exact IH|congruence].
Qed.

Lemma substring_append (p t : string) :
  String.substring (String.length p)
    (String.length (p +:+ t) - String.length p) (p +:+ t) = t.
Proof.
  induction p as [|a p IH].
  - rewrite append_nil. simpl. rewrite Nat.sub_0_r. apply substring_all.
  - rewrite append_cons. simpl. exact IH.
Qed.

(** The token is what follows the prefix ["Bearer "], when the header
    starts with it. *)
Lemma bearer_token_Some (h t : string) :
  Ingest.bearer_token h = Some t <-> h = ("Bearer " +:+ t)%string.
Proof.
  unfold Ingest.bearer_token. split.
  - destruct (String.prefix "Bearer " h) eqn:E; [|discriminate].
    apply prefix_split in E. intros [= <-]. exact E.
  - intros ->. rewrite (prefix_append "Bearer " t).
    f_equal. apply (substring_append "Bearer " t).
Qed.

Lemma unauthorized_false (env : Env) (req : Ingest.Request) :
  Ingest.unauthorized env req = false
  <-> exists t, Ingest.authorization req = Some ("Bearer " +:+ t)%string
                /\ t <> ""%string /\ HAE_TOKEN env = Some t.
Proof.
  unfold Ingest.unauthorized. split.
  - destruct (Ingest.bearer_token (default ""%string (Ingest.authorization req)))
      as [t|] eqn:Et; [|discriminate].
    apply bearer_token_Some in Et.
    intros H. apply orb_false_iff in H as [Hne Heq].
    apply negb_false_iff in Heq.
    destruct (HAE_TOKEN env) as [expected|]; [|discriminate].
    apply String.eqb_eq in Heq. subst expected.
    apply String.eqb_neq in Hne.
    exists t. repeat split; try assumption.
    destruct (Ingest.authorization req) as [h|]; simpl in Et;
      [congruence|discriminate].
  - intros (t & -> & Hne & ->). simpl default.
    rewrite (proj2 (bearer_token_Some _ t) eq_refl).
    apply String.eqb_neq in Hne. rewrite Hne, String.eqb_refl. reflexivity.
Qed.

(** The route after its guards, on an accepted body. *)
Lemma ingest_handler_unfold (env : Env) (ingestDate : string)
  (db : Ingest.DbOutcome) (req : Ingest.Request) (table : list JSValue) :
  let b := or_empty (Ingest.body req) in
  Ingest.handler env ingestDate db req table
  = if negb (String.eqb (Ingest.method req) "POST") then
      Ok (Ingest.mkResponse 405 ["POST"%string]
            (Ingest.ErrorBody "Method not allowed"), table)
    else if Ingest.unauthorized env req then
      Ok (Ingest.mkResponse 401 [] (Ingest.ErrorBody "Unauthorized"), table)
    else if negb (truthy (prop_of b "metrics"))
            && negb (truthy (prop_of b "workouts")) then
      Ok (Ingest.mkResponse 400 []
            (Ingest.ErrorBody "Request body must include metrics or workouts"),
          table)
    else if getSupabaseClient env then
      match db with
      | Ingest.Inserted =>
          Ok (Ingest.mkResponse 200 [] Ingest.SuccessBody,
              table ++ [Ingest.record_of ingestDate (prop_of b "metrics")
                          (prop_of b "workouts") (Ingest.rest_of b)])
      | Ingest.Rejected => Ok (Ingest.mkResponse 200 [] Ingest.SuccessBody, table)
      | Ingest.Raised =>
          Ok (Ingest.mkResponse 500 []
                (Ingest.ErrorBody "Internal server error"), table)
      end
    else Ok (Ingest.mkResponse 200 [] Ingest.SuccessBody, table).
Proof.
  intros b. unfold Ingest.handler, mbind, Result_bind. fold b.
  rewrite !(Get_prop_of b _ (or_empty_not_nullish _)). reflexivity.
Qed.

(** X11: the ingest route answers every request: it never throws, and
    its status is 405 exactly for a method other than POST, otherwise 401
    exactly for a request without the configured bearer token, otherwise
    400 exactly for a body with neither metrics nor workouts, and
    otherwise 200 or, when the database client throws, 500. *)
Theorem ingest_always_responds (env : Env) (ingestDate : string)
  (db : Ingest.DbOutcome) (req : Ingest.Request) (table : list JSValue) :
  exists response table',
    Ingest.handler env ingestDate db req table = Ok (response, table')
    /\ (Ingest.status response = 405 <-> Ingest.method req <> "POST"%string)
    /\ (Ingest.status response = 401
        <-> Ingest.method req = "POST"%string
            /\ Ingest.unauthorized env req = true)
    /\ (Ingest.status response = 400
        <-> Ingest.method req = "POST"%string
            /\ Ingest.unauthorized env req = false
            /\ truthy (prop_of (or_empty (Ingest.body req)) "metrics") = false
            /\ truthy (prop_of (or_empty (Ingest.body req)) "workouts")
               = false)
    /\ (Ingest.status response = 200 \/ Ingest.status response = 400
        \/ Ingest.status response = 401 \/ Ingest.status response = 405
        \/ Ingest.status response = 500).
Proof.
  rewrite ingest_handler_unfold. cbn zeta.
  destruct (String.eqb_spec (Ingest.method req) "POST") as [Hm|Hm]; simpl.
  2: { eexists _, _. split; [reflexivity|]. simpl.
       repeat split; try tauto; try discriminate; intuition congruence. }
  destruct (Ingest.unauthorized env req) eqn:Hu.
  { eexists _, _. split; [reflexivity|]. simpl.
    repeat split; try tauto; try discriminate; intuition congruence. }
  destruct (truthy (prop_of (or_empty (Ingest.body req)) "metrics")) eqn:Tm,
    (truthy (prop_of (or_empty (Ingest.body req)) "workouts")) eqn:Tw; simpl.
  4: { eexists _, _. split; [reflexivity|]. simpl.
       repeat split; try tauto; try discriminate; intuition congruence. }
  all: destruct (getSupabaseClient env); [destruct db|];
    (eexists _, _; split; [reflexivity|]); simpl;
    repeat split; try tauto; try discriminate; intuition congruence.
Qed.

(** X12: the route answers 200 exactly when the method is POST, the
    Authorization header is ["Bearer "] followed by a non-empty token
    equal to the configured [HAE_TOKEN], the body holds a truthy
    [metrics] or [workouts], and the database client does not throw.  A
    resolved insert [error] does not change the answer, and with an
    unset or empty [HAE_TOKEN] no request is accepted. *)
Theorem ingest_accepts_iff (env : Env) (ingestDate : string)
  (db : Ingest.DbOutcome) (req : Ingest.Request) (table : list JSValue) :
  ((exists response table',
       Ingest.handler env ingestDate db req table = Ok (response, table')
       /\ Ingest.status response = 200)
   <-> Ingest.method req = "POST"%string
       /\ (exists t, Ingest.authorization req = Some ("Bearer " +:+ t)%string
                     /\ t <> ""%string /\ HAE_TOKEN env = Some t)
       /\ (truthy (prop_of (or_empty (Ingest.body req)) "metrics") = true
           \/ truthy (prop_of (or_empty (Ingest.body req)) "workouts") = true)
       /\ ~ (getSupabaseClient env = true /\ db = Ingest.Raised))
  /\ (HAE_TOKEN env = None \/ HAE_TOKEN env = Some ""%string ->
      forall response table',
        Ingest.handler env ingestDate db req table = Ok (response, table') ->
        Ingest.status response <> 200).
Proof.
  assert (Hmain :
    (exists response table',
       Ingest.handler env ingestDate db req table = Ok (response, table')
       /\ Ingest.status response = 200)
    <-> Ingest.method req = "POST"%string
        /\ Ingest.unauthorized env req = false
        /\ (truthy (prop_of (or_empty (Ingest.body req)) "metrics") = true
            \/ truthy (prop_of (or_empty (Ingest.body req)) "workouts") = true)
        /\ ~ (getSupabaseClient env = true /\ db = Ingest.Raised)).
  { rewrite ingest_handler_unfold. cbn zeta.
    destruct (String.eqb_spec (Ingest.method req) "POST") as [Hm|Hm]; simpl.
    2: { split; [intros (r & t' & [= <- <-] & Hs); discriminate Hs|tauto]. }
    destruct (Ingest.unauthorized env req).
    { split; [intros (r & t' & [= <- <-] & Hs); discriminate Hs|].
      intros (_ & Hu & _). discriminate Hu. }
    destruct (truthy (prop_of (or_empty (Ingest.body req)) "metrics")),
      (truthy (prop_of (or_empty (Ingest.body req)) "workouts")); simpl.
    4: { split; [intros (r & t' & [= <- <-] & Hs); discriminate Hs|].
         intros (_ & _ & [H|H] & _); discriminate H. }
    all: destruct (getSupabaseClient env); [destruct db|];
      (split;
       [intros (r & t' & [= <- <-] & Hs); try discriminate Hs;
        repeat split; auto; intros [? ?]; discriminate
       |intros (_ & _ & _ & Hdb); try (destruct Hdb; auto; fail);
        eexists _, _; split; reflexivity]). }
  split.
  - rewrite Hmain, unauthorized_false. reflexivity.
  - intros Htok response table' Hrun Hs.
    destruct (proj1 Hmain) as (_ & Hu & _); [eauto|].
    apply unauthorized_false in Hu as (t & _ & Hne & Ht).
    destruct Htok as [Htok|Htok]; congruence.
Qed.

Lemma ingest_accepts_iff_witness :
  exists response table',
    Ingest.handler sample_env "2024-05-01T06:30:00.000Z" Ingest.Inserted
      sample_request [] = Ok (response, table')
    /\ Ingest.status response = 200.
Proof.
  apply (proj2 (proj1 (ingest_accepts_iff sample_env
                         "2024-05-01T06:30:00.000Z" Ingest.Inserted
                         sample_request []))).
  split; [reflexivity|]. split.
  - exists "s3cret"%string. repeat split. discriminate.
  - split; [left; reflexivity|]. intros [_ H]. discriminate H.
Defined.

(** X13: a request changes the table only when it is answered 200, a
    client is configured and the insert succeeds, and then by appending
    exactly one row; a request that is rejected (405, 401, 400) or whose
    insert fails leaves the table as it was. *)
Theorem ingest_table_effect (env : Env) (ingestDate : string)
  (db : Ingest.DbOutcome) (req : Ingest.Request)
  (table table' : list JSValue) (response : Ingest.Response) :
  Ingest.handler env ingestDate db req table = Ok (response, table') ->
  (table' = table
   \/ (exists row, table' = table ++ [row])
      /\ Ingest.status response = 200
      /\ getSupabaseClient env = true /\ db = Ingest.Inserted)
  /\ (Ingest.status response <> 200 -> table' = table)
  /\ (db <> Ingest.Inserted -> table' = table)
  /\ (getSupabaseClient env = false -> table' = table).
Proof.
  rewrite ingest_handler_unfold. cbn zeta.
  destruct (negb (String.eqb (Ingest.method req) "POST"));
    [intros [= <- <-]; simpl; tauto|].
  destruct (Ingest.unauthorized env req);
    [intros [= <- <-]; simpl; tauto|].
  destruct (negb (truthy (prop_of (or_empty (Ingest.body req)) "metrics"))
            && negb (truthy (prop_of (or_empty (Ingest.body req)) "workouts")));
    [intros [= <- <-]; simpl; tauto|].
  destruct (getSupabaseClient env); [destruct db|];
    intros [= <- <-]; simpl; repeat split; try tauto; try congruence.
  right. repeat split. eauto.
Qed.

Lemma ingest_table_effect_witness :
  [JObj ∅] = [JObj ∅]
  \/ (exists row, [JObj ∅] = [JObj ∅] ++ [row])
     /\ Ingest.status (Ingest.mkResponse 200 [] Ingest.SuccessBody) = 200
     /\ getSupabaseClient sample_env = true
     /\ Ingest.Rejected = Ingest.Inserted.
Proof.
  refine (proj1 (ingest_table_effect sample_env "2024-05-01T06:30:00.000Z"
                   Ingest.Rejected sample_request [JObj ∅] [JObj ∅]
                   (Ingest.mkResponse 200 [] Ingest.SuccessBody) _)).
  vm_compute. reflexivity.
Defined.

Lemma truthy_prop_object (b : JSValue) (k : string) :
  truthy (prop_of (or_empty b) k) = true -> exists m, b = JObj m.
Proof.
  unfold or_empty. destruct b as [| |c|x|s|m]; simpl; eauto;
    try discriminate.
  - destruct c; simpl; [discriminate|]. now rewrite lookup_empty.
  - destruct (truthy_num x); simpl; [discriminate|]. now rewrite lookup_empty.
  - destruct (negb (String.eqb s "")); simpl; [discriminate|].
    now rewrite lookup_empty.
Qed.

(** X14: the row stored for an accepted request keeps the whole body:
    the body is an object, the row carries the ingestion time, the body's
    [metrics] and [workouts] (a falsy one replaced by [null]) and, under
    [payload], every other key of the body with its value, and nothing
    else. *)
Theorem ingest_stored_row (env : Env) (ingestDate : string)
  (req : Ingest.Request) (table table' : list JSValue)
  (response : Ingest.Response) :
  Ingest.handler env ingestDate Ingest.Inserted req table
  = Ok (response, table') ->
  Ingest.status response = 200 ->
  getSupabaseClient env = true ->
  exists m row payload,
    Ingest.body req = JObj m
    /\ table' = table ++ [row]
    /\ prop_of row "ingest_date" = JStr ingestDate
    /\ prop_of row "metrics"
       = Ingest.or_null (default JUndefined (m !! "metrics"%string))
    /\ prop_of row "workouts"
       = Ingest.or_null (default JUndefined (m !! "workouts"%string))
    /\ prop_of row "payload" = JObj payload
    /\ payload !! "metrics"%string = None
    /\ payload !! "workouts"%string = None
    /\ forall k, k <> "metrics"%string -> k <> "workouts"%string ->
                 payload !! k = m !! k.
Proof.
  rewrite ingest_handler_unfold. cbn zeta.
  destruct (negb (String.eqb (Ingest.method req) "POST"));
    [intros [= <- <-]; discriminate|].
  destruct (Ingest.unauthorized env req); [intros [= <- <-]; discriminate|].
  destruct (negb (truthy (prop_of (or_empty (Ingest.body req)) "metrics"))
            && negb (truthy (prop_of (or_empty (Ingest.body req)) "workouts")))
    eqn:Hbody; [intros [= <- <-]; discriminate|].
  intros Hrun _ Hclient. rewrite Hclient in Hrun. injection Hrun as _ <-.
  assert (Hobj : exists m, Ingest.body req = JObj m).
  { apply andb_false_iff in Hbody as [H|H]; apply negb_false_iff in H;
      eapply truthy_prop_object; exact H. }
  destruct Hobj as [m Hm]. rewrite Hm.
  exists m. eexists.
  exists (delete "metrics"%string (delete "workouts"%string m)).
  split; [reflexivity|]. split; [reflexivity|].
  repeat split.
  - apply lookup_delete_eq.
  - rewrite lookup_delete_ne by discriminate. apply lookup_delete_eq.
  - intros k Hk1 Hk2. now rewrite !lookup_delete_ne by congruence.
Qed.

Lemma ingest_stored_row_witness :
  exists m row payload,
    sample_body = JObj m
    /\ [row] = [] ++ [row]
    /\ prop_of row "ingest_date" = JStr "2024-05-01T06:30:00.000Z"
    /\ prop_of row "metrics"
       = Ingest.or_null (default JUndefined (m !! "metrics"%string))
    /\ prop_of row "workouts"
       = Ingest.or_null (default JUndefined (m !! "workouts"%string))
    /\ prop_of row "payload" = JObj payload
    /\ payload !! "metrics"%string = None
    /\ payload !! "workouts"%string = None
    /\ forall k, k <> "metrics"%string -> k <> "workouts"%string ->
                 payload !! k = m !! k.
Proof.
  destruct (ingest_stored_row sample_env "2024-05-01T06:30:00.000Z"
              sample_request []
              [Ingest.record_of "2024-05-01T06:30:00.000Z"
                 (prop_of sample_body "metrics")
                 (prop_of sample_body "workouts")
                 (Ingest.rest_of sample_body)]
              (Ingest.mkResponse 200 [] Ingest.SuccessBody))
    as (m & row & payload & Hm & Ht & Hrest).
  - vm_compute. reflexivity.
  - reflexivity.
  - reflexivity.
  - exists m, row, payload. split; [exact Hm|]. split; [reflexivity|].
    exact Hrest.
Defined.

(** ** From the ingest route to the page *)






(** ** The range parameter of the timeseries route *)

Lemma unit_not_digit (u : ascii) :
  Timeseries.is_unit u = true -> Timeseries.is_digit u = false.
Proof.
  unfold Timeseries.is_unit. rewrite !orb_true_iff, !Ascii.eqb_eq.
  intros [[[->| ->]| ->]| ->]; reflexivity.
Qed.

Lemma match_here_nondigit (c : ascii) (l : list ascii) :
  Timeseries.is_digit c = false -> Timeseries.match_here (c :: l) = None.
Proof. intros H. simpl. now rewrite H. Qed.

(** At the head of a run of digits followed by a unit letter, the
    pattern matches the whole run. *)
Lemma match_here_run (ds : list ascii) (u : ascii) (post : list ascii) :
  ds <> [] ->
  Forall (fun c => Timeseries.is_digit c = true) ds ->
  Timeseries.is_unit u = true ->
  Timeseries.match_here (ds ++ u :: post) = Some (ds, u).
Proof.
  intros Hne Hds Hu. induction Hds as [|c ds Hc Hds IH]; [congruence|].
  cbn [app Timeseries.match_here]. rewrite Hc.
  destruct ds as [|c' ds'].
  - cbn [app]. rewrite (match_here_nondigit u post (unit_not_digit u Hu)).
    now rewrite Hu.
  - rewrite IH by discriminate. reflexivity.
Qed.

Lemma match_here_sound (l ds : list ascii) (u : ascii) :
  Timeseries.match_here l = Some (ds, u) ->
  exists post, l = ds ++ u :: post /\ ds <> []
               /\ Forall (fun c => Timeseries.is_digit c = true) ds
               /\ Timeseries.is_unit u = true.
Proof.
  revert ds. induction l as [|c l IH]; intros ds; [discriminate|].
  cbn [Timeseries.match_here].
  destruct (Timeseries.is_digit c) eqn:Hc; [|discriminate].
  destruct (Timeseries.match_here l) as [[ds' u']|] eqn:Hl.
  - intros [= <- <-]. destruct (IH ds' eq_refl) as (post & -> & _ & Hds & Hu).
    exists post. repeat split; try assumption; [discriminate|].
    now constructor.
  - destruct l as [|v l']; [discriminate|].
    destruct (Timeseries.is_unit v) eqn:Hv; [|discriminate].
    intros [= <- <-]. exists l'. repeat split; try assumption; [discriminate|].
    repeat constructor. exact Hc.
Qed.


Lemma search_sound (l ds : list ascii) (u : ascii) :
  Timeseries.search l = Some (ds, u) ->
  exists pre post, l = pre ++ ds ++ u :: post /\ ds <> []
                   /\ Forall (fun c => Timeseries.is_digit c = true) ds
                   /\ Timeseries.is_unit u = true.
Proof.
  induction l as [|c l IH].
  - discriminate.
  - cbn [Timeseries.search].
    destruct (Timeseries.match_here (c :: l)) as [r|] eqn:Hm.
    + intros [= ->]. apply match_here_sound in Hm as (post & Hl & Hrest).
      exists [], post. now rewrite Hl.
    + intros Hs. destruct (IH Hs) as (pre & post & -> & Hrest).
      exists (c :: pre), post. split; [reflexivity|exact Hrest].
Qed.

Lemma search_complete (pre post : list ascii) (c u : ascii) :
  Timeseries.is_digit c = true -> Timeseries.is_unit u = true ->
  exists r, Timeseries.search (pre ++ c :: u :: post) = Some r.
Proof.
  intros Hc Hu. induction pre as [|a pre IH].
  - exists ([c], u). cbn [app Timeseries.search].
    assert (Hrun : Timeseries.match_here (c :: u :: post) = Some ([c], u)).
    { apply (match_here_run [c] u post); [discriminate| |exact Hu].
      now repeat constructor. }
    now rewrite Hrun.
  - cbn [app Timeseries.search].
    destruct (Timeseries.match_here (a :: pre ++ c :: u :: post)); eauto.
Qed.

Lemma unit_cases (u : ascii) :
  Timeseries.is_unit u = true ->
  u = "d"%char \/ u = "w"%char \/ u = "m"%char \/ u = "y"%char.
Proof.
  unfold Timeseries.is_unit. rewrite !orb_true_iff, !Ascii.eqb_eq. tauto.
Qed.

Lemma parseRange_of_search (s : string) (ds : list ascii) (u : ascii) :
  Timeseries.search (String.list_ascii_of_string s) = Some (ds, u) ->
  Timeseries.parseRange (JStr s)
  = if Ascii.eqb u "d" then Some (Timeseries.DaysBack (Timeseries.parseInt10 ds))
    else if Ascii.eqb u "w"
         then Some (Timeseries.DaysBack (Timeseries.parseInt10 ds * 7)%float)
    else if Ascii.eqb u "m"
         then Some (Timeseries.MonthsBack (Timeseries.parseInt10 ds))
    else if Ascii.eqb u "y"
         then Some (Timeseries.YearsBack (Timeseries.parseInt10 ds))
    else None.
Proof.
  intros Hs. unfold Timeseries.parseRange.
  destruct s as [|c s]; [discriminate Hs|].
  now rewrite Hs.
Qed.



(** X17: [parseRange] gives no cut-off (the route then applies no date
    filter) exactly when the range is not a string in which some digit is
    directly followed by one of the letters d, w, m, y; in particular for
    an empty string, a bare number or a unit the pattern does not
    know. *)
Theorem parseRange_no_filter (range : JSValue) :
  Timeseries.parseRange range = None
  <-> forall s, range = JStr s ->
        ~ exists pre c u post,
            String.list_ascii_of_string s = pre ++ c :: u :: post
            /\ Timeseries.is_digit c = true
            /\ Timeseries.is_unit u = true.
Proof.
  destruct range as [| |b|x|s|o];
    try (split; [intros _ s' [=]|reflexivity]).
  destruct (Timeseries.search (String.list_ascii_of_string s))
    as [[ds u]|] eqn:Hsearch.
  - rewrite (parseRange_of_search s ds u Hsearch).
    destruct (search_sound _ _ _ Hsearch) as (pre & post & Hl & Hne & Hds & Hu).
    split.
    + destruct (unit_cases u Hu) as [-> | [-> | [-> | ->]]]; discriminate.
    + intros Hno. exfalso. apply (Hno s eq_refl).
      destruct ds as [|d ds'] using rev_ind; [congruence|].
      apply Forall_app in Hds as [_ Hd]. apply Forall_cons_1 in Hd as [Hd _].
      exists (pre ++ ds'), d, u, post. split; [|auto].
      rewrite Hl, <- !app_assoc. reflexivity.
  - split.
    + intros _ s' [= <-] (pre & c & u & post & Hl & Hc & Hu).
      destruct (search_complete pre post c u Hc Hu) as [r Hr].
      rewrite <- Hl in Hr. congruence.
    + intros _. unfold Timeseries.parseRange.
      rewrite Hsearch. now destruct (String.eqb s "").
Qed.


